(** * MCP career-intelligence server: protocol engine

    A shallow embedding of the JSON-RPC / MCP request engine of the
    repository (server/src/handlers/base.handler.ts,
    initialization.handler.ts, tools.handler.ts, mcp/transport.ts,
    server.ts and types/mcp.types.ts), together with the properties of
    its dispatcher, handler pipeline, handshake and transports.

    Conventions.
    - A JavaScript value that may be [undefined] is a [jsval], that is an
      [option json]: [None] is [undefined].
    - JavaScript numbers are restricted to the integers ([Z]); ids and
      error codes, the only numbers the engine inspects, are integers.
    - [throw] is modelled by the [Throwing] monad; [try]/[catch] by a
      [match] on its result.
    - Mutable objects (transports) are records threaded explicitly; an
      [EventEmitter.emit] appends to the trace of emitted events.
    - Logging never influences control flow and is left out, except for
      the property reads that a logging call performs (they can raise a
      [TypeError]) and for the failures [broadcast] logs. *)

From Stdlib Require Import ZArith String Ascii List Bool Lia.
From Stdlib Require Import DecimalString.
From stdpp Require Import base option strings gmap list.

Local Open Scope string_scope.
Local Open Scope list_scope.
Local Open Scope nat_scope.

(** ** JSON values and the JavaScript operations used on them *)

#[warnings="-register-all"] Inductive json : Type :=
| JNull
| JBool (b : bool)
| JNum (n : Z)
| JStr (s : string)
| JArr (items : list json)
| JObj (fields : list (string * json)).

(** A value that may be [undefined]. *)
Definition jsval : Type := option json.

Definition undefined : jsval := None.

(** Own-property lookup on the field list of an object. *)
Fixpoint obj_get (k : string) (fields : list (string * json)) : jsval :=
  match fields with
  | [] => None
  | (k', v) :: rest => if String.eqb k k' then Some v else obj_get k rest
  end.

(** [obj[k] = v]: overwrite in place, or append a new key. *)
Fixpoint obj_set (k : string) (v : json) (fields : list (string * json))
  : list (string * json) :=
  match fields with
  | [] => [(k, v)]
  | (k', v') :: rest =>
      if String.eqb k k' then (k, v) :: rest else (k', v') :: obj_set k v rest
  end.

(** JavaScript truthiness ([!x] is [negb (truthy x)]). *)
Definition truthy (v : jsval) : bool :=
  match v with
  | None | Some JNull => false
  | Some (JBool b) => b
  | Some (JNum n) => negb (n =? 0)%Z
  | Some (JStr s) => negb (String.eqb s "")
  | Some (JArr _) | Some (JObj _) => true
  end.

(** [typeof v]. *)
Definition typeof (v : jsval) : string :=
  match v with
  | None => "undefined"
  | Some JNull | Some (JArr _) | Some (JObj _) => "object"
  | Some (JBool _) => "boolean"
  | Some (JNum _) => "number"
  | Some (JStr _) => "string"
  end.

(** [v === 'lit'] for a string literal. *)
Definition strict_eq_str (v : jsval) (lit : string) : bool :=
  match v with
  | Some (JStr s) => String.eqb s lit
  | _ => false
  end.

(** [a || b] where [b] is a defined value. *)
Definition js_or (a : jsval) (b : json) : json :=
  match a with
  | Some x => if truthy a then x else b
  | None => b
  end.

Definition string_of_Z (n : Z) : string := NilZero.string_of_int (Z.to_int n).

Definition join (sep : string) (parts : list string) : string :=
  match parts with
  | [] => ""
  | p :: ps => fold_left (fun acc x => acc +:+ sep +:+ x) ps p
  end.

(** [String(v)], the conversion a template literal applies.  It is the
    identity on strings, which is what the engine applies it to: the
    request type and both codecs make [method] a string, and the schema
    of tools/call makes the tool name one.  On the other values it
    follows the conversion for integers below 10^21 in magnitude (from
    there on the code prints the exponent form, 1e+21) and for objects
    without a [toString] property of their own (with one, the
    conversion throws a TypeError). *)
Fixpoint json_to_String (v : json) : string :=
  match v with
  | JNull => "null"
  | JBool true => "true"
  | JBool false => "false"
  | JNum n => string_of_Z n
  | JStr s => s
  | JArr items =>
      join "," (map (fun x => match x with
                              | JNull => ""
                              | _ => json_to_String x
                              end) items)
  | JObj _ => "[object Object]"
  end.

Definition js_String (v : jsval) : string :=
  match v with
  | None => "undefined"
  | Some x => json_to_String x
  end.

(** [s.includes(sub)]. *)
Fixpoint includes (s sub : string) : bool :=
  String.prefix sub s ||
  match s with
  | EmptyString => false
  | String _ s' => includes s' sub
  end.

(** ** Error model (types/mcp.types.ts) *)

Inductive MCPErrorCode : Type :=
| PARSE_ERROR
| INVALID_REQUEST
| METHOD_NOT_FOUND
| INVALID_PARAMS
| INTERNAL_ERROR
| INITIALIZATION_FAILED
| RESOURCE_NOT_FOUND
| TOOL_EXECUTION_ERROR
| PROMPT_NOT_FOUND
| SAMPLING_ERROR
| TRANSPORT_ERROR
| VALIDATION_ERROR
| AUTHORIZATION_ERROR
| RATE_LIMIT_ERROR
| TIMEOUT_ERROR.

(** The numeric value of each member of the enum. *)
Definition code_value (c : MCPErrorCode) : Z :=
  match c with
  | PARSE_ERROR => -32700
  | INVALID_REQUEST => -32600
  | METHOD_NOT_FOUND => -32601
  | INVALID_PARAMS => -32602
  | INTERNAL_ERROR => -32603
  | INITIALIZATION_FAILED => -32000
  | RESOURCE_NOT_FOUND => -32001
  | TOOL_EXECUTION_ERROR => -32002
  | PROMPT_NOT_FOUND => -32003
  | SAMPLING_ERROR => -32004
  | TRANSPORT_ERROR => -32005
  | VALIDATION_ERROR => -32006
  | AUTHORIZATION_ERROR => -32007
  | RATE_LIMIT_ERROR => -32008
  | TIMEOUT_ERROR => -32009
  end%Z.

Record JSONRPCError : Type := mkJSONRPCError {
  code : Z;
  message : string;
  data : jsval
}.

(** [class MCPError extends Error]. *)
Record MCPError : Type := mkMCPError {
  err_code : MCPErrorCode;
  err_message : string;
  err_data : jsval
}.

Definition toJSONRPCError (e : MCPError) : JSONRPCError :=
  {| code := code_value (err_code e);
     message := err_message e;
     data := err_data e |}.

(** A thrown value: an [MCPError], or any other [Error] (a [TypeError],
    a [SyntaxError], a failure of a library), of which only the name and
    the message are observed. *)
Inductive exn : Type :=
| ExnMCP (e : MCPError)
| ExnError (name : string) (msg : string).

(** [error.message]. *)
Definition exn_message (e : exn) : string :=
  match e with
  | ExnMCP m => err_message m
  | ExnError _ msg => msg
  end.

(** ** Exceptions *)

Inductive Throwing (A : Type) : Type :=
| Return (a : A)
| Throw (e : exn).
Arguments Return {A} a.
Arguments Throw {A} e.

Definition bindT {A B : Type} (m : Throwing A) (k : A -> Throwing B)
  : Throwing B :=
  match m with
  | Return a => k a
  | Throw e => Throw e
  end.

Declare Scope throwing_scope.
Delimit Scope throwing_scope with T.
Notation "'do' x <- m ; k" := (bindT m (fun x => k))
  (at level 10, x name, m at level 100, k at level 200) : throwing_scope.
Notation "m ;;; k" := (bindT m (fun _ => k))
  (at level 100, k at level 200, right associativity) : throwing_scope.

(** Property read [v.k]: a [TypeError] on [undefined] and [null],
    [undefined] on a primitive or a missing key. *)
Definition prop (v : jsval) (k : string) : Throwing jsval :=
  match v with
  | None =>
      Throw (ExnError "TypeError"
               ("Cannot read properties of undefined (reading '" +:+ k +:+ "')"))
  | Some JNull =>
      Throw (ExnError "TypeError"
               ("Cannot read properties of null (reading '" +:+ k +:+ "')"))
  | Some (JObj fields) => Return (obj_get k fields)
  | Some _ => Return None
  end.

(** ** JSON-RPC envelope (types/mcp.types.ts) *)

(** The statically declared type fixes [jsonrpc] to ['2.0'] and [method]
    to a string, but a request reaches the engine as a cast of whatever
    the transport received, so each field is an arbitrary [jsval]. *)
Record JSONRPCRequest : Type := mkRequest {
  req_jsonrpc : jsval;
  req_id : jsval;
  req_method : jsval;
  req_params : jsval
}.

Record JSONRPCResponse : Type := mkResponse {
  res_jsonrpc : string;
  res_id : jsval;
  res_result : jsval;
  res_error : option JSONRPCError
}.

Record JSONRPCNotification : Type := mkNotification {
  ntf_jsonrpc : string;
  ntf_method : string;
  ntf_params : jsval
}.

(** The view of a received object as a request ([message as
    JSONRPCRequest]). *)
Definition as_request (o : json) : JSONRPCRequest :=
  match o with
  | JObj fields =>
      {| req_jsonrpc := obj_get "jsonrpc" fields;
         req_id := obj_get "id" fields;
         req_method := obj_get "method" fields;
         req_params := obj_get "params" fields |}
  | _ =>
      {| req_jsonrpc := None; req_id := None;
         req_method := None; req_params := None |}
  end.

(** ** Parameter schemas (the [Joi] library)

    The schema language is the part of Joi the handlers use.  A
    [.description(...)] annotation carries no validation meaning and is
    dropped; [.optional()] is Joi's default presence. *)

#[warnings="-register-all"] Inductive JoiSchema : Type :=
| Joi_string
| Joi_number
| Joi_boolean
| Joi_object (keys : option (list (string * JoiSchema)))
| Joi_alternatives (alts : list JoiSchema)
| Joi_required (s : JoiSchema).

Definition Joi_optional (s : JoiSchema) : JoiSchema := s.

(** The pair [{ error, value }] returned by [schema.validate]. *)
Inductive JoiResult : Type :=
| JoiValue (value : jsval)
| JoiError (msg : string) (details : json).

(** ** The host: what the engine takes from its runtime

    [Joi_validate] is [schema.validate(params)] of the Joi library,
    [JSON_parse] is [JSON.parse] (its [SyntaxError] is the [Throw]) and
    [NODE_ENV] is [process.env['NODE_ENV']]. *)

Class Host : Type := {
  Joi_validate : JoiSchema -> jsval -> JoiResult;
  JSON_parse : string -> Throwing json;
  NODE_ENV : jsval
}.

(** ** Handler contract (handlers/base.handler.ts) *)

(** A handler is its bound method name and the two abstract members of
    [BaseMCPHandler]. *)
Record BaseMCPHandler : Type := mkHandler {
  h_method : string;
  getParamsSchema : option JoiSchema;
  execute : jsval -> JSONRPCRequest -> Throwing json
}.

Definition createError (c : MCPErrorCode) (msg : string) (d : jsval)
  : MCPError :=
  {| err_code := c; err_message := msg; err_data := d |}.

Section Handler.
Context `{Host}.

(** [validateRequest].  The request is an object here, so the leading
    [if (!request)] guard never fires. *)
Definition validateRequest (h : BaseMCPHandler) (request : JSONRPCRequest)
  : Throwing unit :=
  if negb (strict_eq_str (req_jsonrpc request) "2.0") then
    Throw (ExnMCP (mkMCPError INVALID_REQUEST "Invalid JSON-RPC version" None))
  else if negb (strict_eq_str (req_method request) (h_method h)) then
    Throw (ExnMCP (mkMCPError METHOD_NOT_FOUND
                     ("Expected method '" +:+ h_method h +:+ "', got '"
                        +:+ js_String (req_method request) +:+ "'")
                     None))
  else Return tt.

(** [validateParams]. *)
Definition validateParams (h : BaseMCPHandler) (params : jsval)
  : Throwing jsval :=
  match getParamsSchema h with
  | None => Return (Some (js_or params (JObj [])))
  | Some schema =>
      match Joi_validate schema params with
      | JoiError msg details =>
          Throw (ExnMCP (mkMCPError INVALID_PARAMS
                           ("Parameter validation failed: " +:+ msg)
                           (Some (JObj [("validationDetails", details)]))))
      | JoiValue value => Return value
      end
  end.

(** The body of the [try] block of [handle]: the three stages in
    order, the first failure ending the run. *)
Definition pipeline (h : BaseMCPHandler) (request : JSONRPCRequest)
  : Throwing json :=
  (validateRequest h request ;;;
   do validatedParams <- validateParams h (req_params request);
   execute h validatedParams request)%T.

(** [handle]: the [try] block and its [catch]. *)
Definition handle (h : BaseMCPHandler) (request : JSONRPCRequest)
  : JSONRPCResponse :=
  let requestId := req_id request in
  match pipeline h request with
  | Return result =>
      {| res_jsonrpc := "2.0"; res_id := requestId;
         res_result := Some result; res_error := None |}
  | Throw (ExnMCP error) =>
      {| res_jsonrpc := "2.0"; res_id := requestId;
         res_result := None; res_error := Some (toJSONRPCError error) |}
  | Throw (ExnError _ msg) =>
      {| res_jsonrpc := "2.0"; res_id := requestId;
         res_result := None;
         res_error :=
           Some {| code := code_value INTERNAL_ERROR;
                   message := "Internal server error";
                   data :=
                     if strict_eq_str NODE_ENV "development"
                     then Some (JObj [("originalError", JStr msg)])
                     else None |} |}
  end.

Definition supportsMethod (h : BaseMCPHandler) (m : jsval) : bool :=
  strict_eq_str m (h_method h).

(** ** Handler registry (the dispatcher) *)

(** [handlers.get(method)]: a key that is not a string is bound to
    nothing. *)
Definition getHandler (handlers : gmap string BaseMCPHandler) (m : jsval)
  : option BaseMCPHandler :=
  match m with
  | Some (JStr name) => handlers !! name
  | _ => None
  end.

Definition hasHandler (handlers : gmap string BaseMCPHandler) (m : jsval)
  : bool :=
  bool_decide (is_Some (getHandler handlers m)).

(** [register]: the outcome of the call and the registry after it. *)
Definition register (handler : BaseMCPHandler)
    (handlers : gmap string BaseMCPHandler)
  : Throwing unit * gmap string BaseMCPHandler :=
  let method := h_method handler in
  match handlers !! method with
  | Some _ =>
      (Throw (ExnError "Error"
                ("Handler for method '" +:+ method
                   +:+ "' is already registered")),
       handlers)
  | None => (Return tt, <[method := handler]> handlers)
  end.

(** [handleRequest]. *)
Definition handleRequest (handlers : gmap string BaseMCPHandler)
    (request : JSONRPCRequest) : JSONRPCResponse :=
  match getHandler handlers (req_method request) with
  | None =>
      {| res_jsonrpc := "2.0"; res_id := req_id request;
         res_result := None;
         res_error :=
           Some {| code := code_value METHOD_NOT_FOUND;
                   message := "Method '" +:+ js_String (req_method request)
                                +:+ "' not found";
                   data := None |} |}
  | Some handler => handle handler request
  end.

Definition getRegisteredMethods (handlers : gmap string BaseMCPHandler)
  : list string :=
  (map_to_list handlers).*1.

(** [unregister]: whether something was removed, and the registry after
    the call. *)
Definition unregister (method : string)
    (handlers : gmap string BaseMCPHandler)
  : bool * gmap string BaseMCPHandler :=
  (bool_decide (is_Some (handlers !! method)), delete method handlers).

Definition clear (handlers : gmap string BaseMCPHandler)
  : gmap string BaseMCPHandler := ∅.

(** Registering a list of handlers in order, stopping at the first
    call that throws (the constructor of the server does not catch). *)
Fixpoint register_all (hs : list BaseMCPHandler)
    (handlers : gmap string BaseMCPHandler)
  : Throwing unit * gmap string BaseMCPHandler :=
  match hs with
  | [] => (Return tt, handlers)
  | h :: rest =>
      match register h handlers with
      | (Return _, handlers') => register_all rest handlers'
      | (Throw e, handlers') => (Throw e, handlers')
      end
  end.
End Handler.

(** ** Protocol handshake (handlers/initialization.handler.ts) *)

Record ServerInfo : Type := mkServerInfo {
  si_name : string;
  si_version : string
}.

Definition InitializeHandler_schema : JoiSchema :=
  Joi_object (Some [
    ("protocolVersion", Joi_required Joi_string);
    ("capabilities",
      Joi_required (Joi_object (Some [
        ("experimental", Joi_optional (Joi_object None));
        ("sampling", Joi_optional (Joi_object None));
        ("tools", Joi_optional (Joi_object (Some [
            ("listChanged", Joi_optional Joi_boolean)])));
        ("resources", Joi_optional (Joi_object (Some [
            ("subscribe", Joi_optional Joi_boolean);
            ("listChanged", Joi_optional Joi_boolean)])));
        ("prompts", Joi_optional (Joi_object (Some [
            ("listChanged", Joi_optional Joi_boolean)])));
        ("logging", Joi_optional (Joi_object None));
        ("roots", Joi_optional (Joi_object (Some [
            ("listChanged", Joi_optional Joi_boolean)])))])));
    ("clientInfo",
      Joi_required (Joi_object (Some [
        ("name", Joi_required Joi_string);
        ("version", Joi_required Joi_string)])))]).

Definition supportedVersions : list string := ["2024-11-05"].

(** [supportedVersions.includes(version)]. *)
Definition isProtocolVersionSupported (version : jsval) : bool :=
  existsb (strict_eq_str version) supportedVersions.

Definition serverCapabilities : json :=
  JObj [
    ("tools", JObj [("listChanged", JBool true)]);
    ("resources", JObj [("subscribe", JBool true);
                        ("listChanged", JBool true)]);
    ("prompts", JObj [("listChanged", JBool true)]);
    ("logging", JObj [])].

Definition getServerInstructions : string :=
"# MCP Career Intelligence Server

This server provides access to Mark Cena's career intelligence data through the Notion API.

## Available Tools:
- **get_career_initiatives**: Retrieve current career development initiatives
- **get_achievements**: Fetch accomplishments and achievements
- **get_tasks**: Get current career development tasks
- **search_career_data**: Search across all career data
- **get_skill_analysis**: Analyze skills and competencies

## Available Resources:
- **notion://initiatives**: Career initiatives database
- **notion://achievements**: Achievements database  
- **notion://tasks**: Tasks database

## Available Prompts:
- **career_summary**: Generate a comprehensive career summary
- **skill_gap_analysis**: Analyze skill gaps for target roles
- **interview_preparation**: Prepare for technical interviews

The server integrates with Notion API to provide real-time access to career development data for both Claude.ai integration and portfolio presentation.".

(** The value [execute] returns when the version is supported. *)
Definition InitializeResult (serverInfo : ServerInfo) : json :=
  JObj [
    ("protocolVersion", JStr "2024-11-05");
    ("capabilities", serverCapabilities);
    ("serverInfo", JObj [("name", JStr (si_name serverInfo));
                         ("version", JStr (si_version serverInfo))]);
    ("instructions", JStr getServerInstructions)].

(** [InitializeHandler.execute].  The first logging call reads
    [params.clientInfo.name], [params.clientInfo.version],
    [params.protocolVersion] and [params.capabilities], in this order. *)
Definition InitializeHandler_execute (serverInfo : ServerInfo)
    (params : jsval) (request : JSONRPCRequest) : Throwing json :=
  (do clientInfo <- prop params "clientInfo";
   do clientName <- prop clientInfo "name";
   do clientVersion <- prop clientInfo "version";
   do protocolVersion <- prop params "protocolVersion";
   do clientCapabilities <- prop params "capabilities";
   if negb (isProtocolVersionSupported protocolVersion) then
     Throw (ExnMCP (createError INITIALIZATION_FAILED
                      ("Unsupported protocol version: "
                         +:+ js_String protocolVersion
                         +:+ ". Supported versions: 2024-11-05")
                      (Some (JObj [("supportedVersions",
                                    JArr [JStr "2024-11-05"])]))))
   else Return (InitializeResult serverInfo))%T.

Definition InitializeHandler (serverInfo : ServerInfo) : BaseMCPHandler :=
  {| h_method := "initialize";
     getParamsSchema := Some InitializeHandler_schema;
     execute := InitializeHandler_execute serverInfo |}.

(** [InitializedHandler]: no schema, and [execute] returns [{}]. *)
Definition InitializedHandler : BaseMCPHandler :=
  {| h_method := "initialized";
     getParamsSchema := None;
     execute := fun _ _ => Return (JObj []) |}.

(** ** Tool invocation (handlers/tools.handler.ts) *)

Definition ToolsCallHandler_schema : JoiSchema :=
  Joi_object (Some [
    ("name", Joi_required Joi_string);
    ("arguments", Joi_optional (Joi_object None));
    ("progressToken",
      Joi_optional (Joi_alternatives [Joi_string; Joi_number]))]).

(** The five tool bodies query the Notion workspace through the client
    the handler is constructed with; what each returns or throws for
    given arguments is the data provider's answer. *)
Record ToolBodies : Type := mkToolBodies {
  getCareerInitiatives : json -> Throwing json;
  getAchievements : json -> Throwing json;
  getTasks : json -> Throwing json;
  searchCareerData : json -> Throwing json;
  getSkillAnalysis : json -> Throwing json
}.

(** The [switch] of [ToolsCallHandler.execute]. *)
Definition ToolsCallHandler_switch (tools : ToolBodies)
    (name arguments : jsval) : Throwing json :=
  if strict_eq_str name "get_career_initiatives" then
    getCareerInitiatives tools (js_or arguments (JObj []))
  else if strict_eq_str name "get_achievements" then
    getAchievements tools (js_or arguments (JObj []))
  else if strict_eq_str name "get_tasks" then
    getTasks tools (js_or arguments (JObj []))
  else if strict_eq_str name "search_career_data" then
    searchCareerData tools (js_or arguments (JObj []))
  else if strict_eq_str name "get_skill_analysis" then
    getSkillAnalysis tools (js_or arguments (JObj []))
  else
    Throw (ExnMCP (createError METHOD_NOT_FOUND
                     ("Unknown tool: " +:+ js_String name) None)).

(** [ToolsCallHandler.execute]: the reads of the logging call, the
    [switch] inside [try], and the [catch] that turns a failure whose
    message mentions the Notion API into an [isError] result. *)
Definition ToolsCallHandler_execute (tools : ToolBodies)
    (params : jsval) (request : JSONRPCRequest) : Throwing json :=
  (do name <- prop params "name";
   do arguments <- prop params "arguments";
   match ToolsCallHandler_switch tools name arguments with
   | Return result => Return result
   | Throw error =>
       if includes (exn_message error) "Notion API" then
         Return (JObj [
           ("content",
             JArr [JObj [("type", JStr "text");
                         ("text", JStr ("Tool execution failed: "
                                          +:+ exn_message error))]]);
           ("isError", JBool true)])
       else Throw error
   end)%T.

Definition ToolsCallHandler (tools : ToolBodies) : BaseMCPHandler :=
  {| h_method := "tools/call";
     getParamsSchema := Some ToolsCallHandler_schema;
     execute := ToolsCallHandler_execute tools |}.

(** ** String operations of the byte-stream transport *)

(** The white space [String.prototype.trim] removes, within ASCII: the
    characters of a string are bytes here, and the spaces beyond ASCII
    that [trim] removes as well (U+00A0, U+FEFF and the other Unicode
    spaces) are not told apart from other bytes.  A line that begins and
    ends with ASCII is trimmed as the code trims it. *)
Definition is_space (c : ascii) : bool :=
  let n := nat_of_ascii c in
  ((9 <=? n) && (n <=? 13)) || (n =? 32).

Fixpoint trim_left (s : string) : string :=
  match s with
  | String c s' => if is_space c then trim_left s' else s
  | EmptyString => EmptyString
  end.

Fixpoint trim_right (s : string) : string :=
  match s with
  | EmptyString => EmptyString
  | String c s' =>
      let r := trim_right s' in
      if is_space c && String.eqb r "" then EmptyString else String c r
  end.

Definition trim (s : string) : string := trim_right (trim_left s).

(** [s.split(sep)] for a one-character separator: never empty, and the
    last element is what follows the last separator. *)
Fixpoint split (sep : ascii) (s : string) : list string :=
  match s with
  | EmptyString => [EmptyString]
  | String c s' =>
      let r := split sep s' in
      if Ascii.eqb c sep then EmptyString :: r
      else match r with
           | h :: t => String c h :: t
           | [] => [String c EmptyString]
           end
  end.

Definition newline : ascii := ascii_of_nat 10.

(** ** A reference model of the host

    The properties below hold for every [Host].  To evaluate the engine
    on concrete requests, the following model of the two library
    functions is used.  It covers Joi's defaults for the schema
    constructors above (keys optional unless required, unknown keys
    rejected, empty strings rejected, the first violation reported,
    boolean strings converted) on values that are already JSON, and
    [JSON.parse] on JSON text whose numbers are integers and whose string
    escapes are the single-character ones. *)

Module HostModel.

Definition dquote : string := String (ascii_of_nat 34) EmptyString.

Definition to_lower_ascii (c : ascii) : ascii :=
  let n := nat_of_ascii c in
  if (65 <=? n) && (n <=? 90) then ascii_of_nat (n + 32) else c.

Fixpoint to_lower (s : string) : string :=
  match s with
  | EmptyString => EmptyString
  | String c s' => String (to_lower_ascii c) (to_lower s')
  end.

Definition violation (label reason type : string) : JoiResult :=
  let m := dquote +:+ label +:+ dquote +:+ " " +:+ reason in
  JoiError m (JArr [JObj [("message", JStr m);
                          ("path", JArr [JStr label]);
                          ("type", JStr type)]]).

Definition first_unknown (keys : list (string * JoiSchema))
    (fields : list (string * json)) : option string :=
  head (filter (fun k => negb (existsb (String.eqb k) keys.*1)) fields.*1).

Fixpoint validate_at (label : string) (required : bool) (s : JoiSchema)
    (v : jsval) {struct s} : JoiResult :=
  match s with
  | Joi_required s' => validate_at label true s' v
  | Joi_string =>
      match v with
      | None => if required then violation label "is required" "any.required"
                else JoiValue None
      | Some (JStr str) =>
          if String.eqb str ""
          then violation label "is not allowed to be empty" "string.empty"
          else JoiValue v
      | Some _ => violation label "must be a string" "string.base"
      end
  | Joi_number =>
      match v with
      | None => if required then violation label "is required" "any.required"
                else JoiValue None
      | Some (JNum _) => JoiValue v
      | Some _ => violation label "must be a number" "number.base"
      end
  | Joi_boolean =>
      match v with
      | None => if required then violation label "is required" "any.required"
                else JoiValue None
      | Some (JBool _) => JoiValue v
      | Some (JStr str) =>
          if String.eqb (to_lower str) "true" then JoiValue (Some (JBool true))
          else if String.eqb (to_lower str) "false"
               then JoiValue (Some (JBool false))
               else violation label "must be a boolean" "boolean.base"
      | Some _ => violation label "must be a boolean" "boolean.base"
      end
  | Joi_object keys =>
      match v with
      | None => if required then violation label "is required" "any.required"
                else JoiValue None
      | Some (JObj fields) =>
          match keys with
          | None => JoiValue v
          | Some ks =>
              (fix children (rest : list (string * JoiSchema))
                   (acc : list (string * json)) {struct rest} : JoiResult :=
                 match rest with
                 | [] =>
                     match first_unknown ks fields with
                     | Some k => violation k "is not allowed" "object.unknown"
                     | None => JoiValue (Some (JObj acc))
                     end
                 | (k, sk) :: rest' =>
                     match validate_at k false sk (obj_get k fields) with
                     | JoiError m d => JoiError m d
                     | JoiValue None => children rest' acc
                     | JoiValue (Some x) => children rest' (obj_set k x acc)
                     end
                 end) ks fields
          end
      | Some _ => violation label "must be of type object" "object.base"
      end
  | Joi_alternatives alts =>
      match v with
      | None => if required then violation label "is required" "any.required"
                else JoiValue None
      | Some _ =>
          (fix try_each (rest : list JoiSchema) {struct rest} : JoiResult :=
             match rest with
             | [] => violation label "does not match any of the allowed types"
                       "alternatives.match"
             | a :: rest' =>
                 match validate_at label false a v with
                 | JoiValue r => JoiValue r
                 | JoiError _ _ => try_each rest'
                 end
             end) alts
      end
  end.

Definition validate (s : JoiSchema) (v : jsval) : JoiResult :=
  validate_at "value" false s v.

(** *** JSON text *)

Definition is_json_ws (c : ascii) : bool :=
  let n := nat_of_ascii c in
  (n =? 32) || (n =? 9) || (n =? 10) || (n =? 13).

Fixpoint skip_ws (s : string) : string :=
  match s with
  | String c s' => if is_json_ws c then skip_ws s' else s
  | EmptyString => EmptyString
  end.

Definition is_digit (c : ascii) : bool :=
  let n := nat_of_ascii c in (48 <=? n) && (n <=? 57).

Definition digit_value (c : ascii) : Z := Z.of_nat (nat_of_ascii c - 48).

(** The digits at the head of [s], as a number, and what follows. *)
Fixpoint parse_digits (s : string) (acc : Z) : Z * string :=
  match s with
  | String c s' =>
      if is_digit c then parse_digits s' (10 * acc + digit_value c)%Z
      else (acc, s)
  | EmptyString => (acc, s)
  end.

Definition starts_fraction (s : string) : bool :=
  match s with
  | String c _ =>
      let n := nat_of_ascii c in (n =? 46) || (n =? 101) || (n =? 69)
  | EmptyString => false
  end.

(** An integer without sign: a single [0], or digits not led by [0]. *)
Definition parse_nat_lit (s : string) : option (Z * string) :=
  match s with
  | String c s' =>
      if negb (is_digit c) then None
      else
        let '(n, rest) :=
          if (nat_of_ascii c =? 48) then (0%Z, s') else parse_digits s 0%Z in
        if starts_fraction rest then None else Some (n, rest)
  | EmptyString => None
  end.

(** The body of a string literal, after the opening quote. *)
Fixpoint parse_string_body (s : string) : option (string * string) :=
  match s with
  | EmptyString => None
  | String c s' =>
      let n := nat_of_ascii c in
      if n =? 34 then Some (EmptyString, s')
      else if n =? 92 then
        match s' with
        | String e s'' =>
            let m := nat_of_ascii e in
            let unescaped :=
              if m =? 34 then Some e
              else if m =? 92 then Some e
              else if m =? 47 then Some e
              else if m =? 98 then Some (ascii_of_nat 8)
              else if m =? 102 then Some (ascii_of_nat 12)
              else if m =? 110 then Some (ascii_of_nat 10)
              else if m =? 114 then Some (ascii_of_nat 13)
              else if m =? 116 then Some (ascii_of_nat 9)
              else None in
            match unescaped with
            | Some ch =>
                match parse_string_body s'' with
                | Some (str, rest) => Some (String ch str, rest)
                | None => None
                end
            | None => None
            end
        | EmptyString => None
        end
      else if n <? 32 then None
      else
        match parse_string_body s' with
        | Some (str, rest) => Some (String c str, rest)
        | None => None
        end
  end.

Definition drop_prefix (p s : string) : option string :=
  if String.prefix p s
  then Some (String.substring (String.length p)
               (String.length s - String.length p) s)
  else None.

(** One value at the head of [s] (after white space), and what
    follows; [fuel] bounds the number of nested calls. *)
Fixpoint parse_value (fuel : nat) (s : string) {struct fuel}
  : option (json * string) :=
  match fuel with
  | O => None
  | S fuel' =>
      match skip_ws s with
      | EmptyString => None
      | String c s' as s0 =>
          let n := nat_of_ascii c in
          if n =? 34 then
            match parse_string_body s' with
            | Some (str, rest) => Some (JStr str, rest)
            | None => None
            end
          else if n =? 91 then
            match skip_ws s' with
            | String c2 s2 =>
                if nat_of_ascii c2 =? 93 then Some (JArr [], s2)
                else parse_elements fuel' s' []
            | EmptyString => None
            end
          else if n =? 123 then
            match skip_ws s' with
            | String c2 s2 =>
                if nat_of_ascii c2 =? 125 then Some (JObj [], s2)
                else parse_members fuel' s' []
            | EmptyString => None
            end
          else if n =? 45 then
            match parse_nat_lit s' with
            | Some (k, rest) => Some (JNum (- k), rest)
            | None => None
            end
          else if is_digit c then
            match parse_nat_lit s0 with
            | Some (k, rest) => Some (JNum k, rest)
            | None => None
            end
          else
            match drop_prefix "null" s0, drop_prefix "true" s0,
                  drop_prefix "false" s0 with
            | Some rest, _, _ => Some (JNull, rest)
            | _, Some rest, _ => Some (JBool true, rest)
            | _, _, Some rest => Some (JBool false, rest)
            | _, _, _ => None
            end
      end
  end
with parse_elements (fuel : nat) (s : string) (acc : list json)
       {struct fuel} : option (json * string) :=
  match fuel with
  | O => None
  | S fuel' =>
      match parse_value fuel' s with
      | Some (v, rest) =>
          match skip_ws rest with
          | String c rest' =>
              if nat_of_ascii c =? 44 then
                parse_elements fuel' rest' (acc ++ [v])
              else if nat_of_ascii c =? 93 then
                Some (JArr (acc ++ [v]), rest')
              else None
          | EmptyString => None
          end
      | None => None
      end
  end
with parse_members (fuel : nat) (s : string) (acc : list (string * json))
       {struct fuel} : option (json * string) :=
  match fuel with
  | O => None
  | S fuel' =>
      match skip_ws s with
      | String q s1 =>
          if nat_of_ascii q =? 34 then
            match parse_string_body s1 with
            | Some (k, s2) =>
                match skip_ws s2 with
                | String colon s3 =>
                    if nat_of_ascii colon =? 58 then
                      match parse_value fuel' s3 with
                      | Some (v, rest) =>
                          match skip_ws rest with
                          | String c rest' =>
                              if nat_of_ascii c =? 44 then
                                parse_members fuel' rest' (obj_set k v acc)
                              else if nat_of_ascii c =? 125 then
                                Some (JObj (obj_set k v acc), rest')
                              else None
                          | EmptyString => None
                          end
                      | None => None
                      end
                    else None
                | EmptyString => None
                end
            | None => None
            end
          else None
      | EmptyString => None
      end
  end.

Definition parse (text : string) : Throwing json :=
  match parse_value (2 * String.length text + 2) text with
  | Some (v, rest) =>
      match skip_ws rest with
      | EmptyString => Return v
      | String _ _ =>
          Throw (ExnError "SyntaxError"
                   "Unexpected non-whitespace character after JSON")
      end
  | None => Throw (ExnError "SyntaxError" "Unexpected token in JSON")
  end.

(** The host used for evaluation: production mode ([NODE_ENV] unset). *)
Definition host : Host :=
  {| Joi_validate := validate; JSON_parse := parse; NODE_ENV := None |}.

End HostModel.

(** ** Transports (mcp/transport.ts) *)

Inductive OutMessage : Type :=
| OutResponse (r : JSONRPCResponse)
| OutNotification (n : JSONRPCNotification).

(** What a transport emits to its listeners. *)
Inductive TransportEvent : Type :=
| EvMessage (m : JSONRPCRequest)
| EvClose
| EvError (e : MCPError)
| EvConnect
| EvDisconnect.

(** An [Error] object held as data. *)
Definition exn_to_json (e : exn) : json :=
  match e with
  | ExnMCP m => JObj [("name", JStr "MCPError");
                      ("message", JStr (err_message m));
                      ("code", JNum (code_value (err_code m)))]
  | ExnError name msg => JObj [("name", JStr name); ("message", JStr msg)]
  end.

(** The socket.io socket as the transport uses it: its liveness flag,
    what [socket.emit('message', m)] does (it appends to [socket_sent],
    or throws [socket_emit_error]), and whether it was disconnected by
    the server. *)
Record Socket : Type := mkSocket {
  socket_connected : bool;
  socket_emit_error : option exn;
  socket_sent : list OutMessage
}.

Record WebSocketTransport : Type := mkWebSocketTransport {
  ws_socket : Socket;
  ws_connected : bool;
  ws_emitted : list TransportEvent
}.

Definition ws_emit (ev : TransportEvent) (t : WebSocketTransport)
  : WebSocketTransport :=
  {| ws_socket := ws_socket t;
     ws_connected := ws_connected t;
     ws_emitted := ws_emitted t ++ [ev] |}.

(** The checks of [WebSocketTransport.handleMessage], up to the
    [emit]. *)
Definition ws_checked_message (data : jsval) : Throwing JSONRPCRequest :=
  if negb (truthy data) || negb (String.eqb (typeof data) "object") then
    Throw (ExnMCP (mkMCPError INVALID_REQUEST
                     "Message must be a valid JSON object" None))
  else
    (do jsonrpc <- prop data "jsonrpc";
     if negb (strict_eq_str jsonrpc "2.0") then
       Throw (ExnMCP (mkMCPError INVALID_REQUEST
                        "Invalid JSON-RPC version" None))
     else
       do method <- prop data "method";
       if negb (truthy method) || negb (String.eqb (typeof method) "string")
       then Throw (ExnMCP (mkMCPError INVALID_REQUEST
                             "Missing or invalid method field" None))
       else Return (as_request (default JNull data)))%T.

(** [WebSocketTransport.handleMessage]. *)
Definition ws_handleMessage (data : jsval) (t : WebSocketTransport)
  : Throwing unit * WebSocketTransport :=
  match ws_checked_message data with
  | Return message => (Return tt, ws_emit (EvMessage message) t)
  | Throw e => (Throw e, t)
  end.

(** The ['message'] listener installed on the socket by
    [setupEventHandlers]. *)
Definition ws_on_socket_message (data : jsval) (t : WebSocketTransport)
  : WebSocketTransport :=
  match ws_handleMessage data t with
  | (Return _, t') => t'
  | (Throw _, t') =>
      ws_emit (EvError (mkMCPError PARSE_ERROR
                          "Failed to parse incoming message" None)) t'
  end.

(** The ['disconnect'] listener; socket.io raises the event on a socket
    that is no longer connected. *)
Definition ws_on_socket_disconnect (t : WebSocketTransport)
  : WebSocketTransport :=
  ws_emit EvClose
    (ws_emit EvDisconnect
       {| ws_socket :=
            {| socket_connected := false;
               socket_emit_error := socket_emit_error (ws_socket t);
               socket_sent := socket_sent (ws_socket t) |};
          ws_connected := false;
          ws_emitted := ws_emitted t |}).

(** [WebSocketTransport.send]. *)
Definition ws_send (message : OutMessage) (t : WebSocketTransport)
  : Throwing unit * WebSocketTransport :=
  if negb (ws_connected t) then
    (Throw (ExnMCP (mkMCPError TRANSPORT_ERROR "WebSocket not connected" None)),
     t)
  else
    match socket_emit_error (ws_socket t) with
    | None =>
        (Return tt,
         {| ws_socket :=
              {| socket_connected := socket_connected (ws_socket t);
                 socket_emit_error := None;
                 socket_sent := socket_sent (ws_socket t) ++ [message] |};
            ws_connected := ws_connected t;
            ws_emitted := ws_emitted t |})
    | Some error =>
        (Throw (ExnMCP (mkMCPError TRANSPORT_ERROR
                          "Failed to send WebSocket message"
                          (Some (JObj [("originalError",
                                        exn_to_json error)])))),
         t)
    end.

(** [WebSocketTransport.close]: [socket.disconnect()] ends the socket;
    the ['disconnect'] event socket.io raises for it is delivered by
    [ws_on_socket_disconnect]. *)
Definition ws_close (t : WebSocketTransport)
  : Throwing unit * WebSocketTransport :=
  if ws_connected t then
    (Return tt,
     {| ws_socket :=
          {| socket_connected := false;
             socket_emit_error := socket_emit_error (ws_socket t);
             socket_sent := socket_sent (ws_socket t) |};
        ws_connected := false;
        ws_emitted := ws_emitted t |})
  else (Return tt, t).

Definition ws_isConnected (t : WebSocketTransport) : bool :=
  ws_connected t && socket_connected (ws_socket t).

(** The stdio transport: [stdout_written] holds the messages written,
    one serialized line each; [stdout_write_error] is what serializing
    or writing throws, if it does. *)
Record StdioTransport : Type := mkStdioTransport {
  stdio_connected : bool;
  messageBuffer : string;
  stdout_written : list OutMessage;
  stdout_write_error : option exn;
  stdio_emitted : list TransportEvent
}.

Definition stdio_emit (ev : TransportEvent) (t : StdioTransport)
  : StdioTransport :=
  {| stdio_connected := stdio_connected t;
     messageBuffer := messageBuffer t;
     stdout_written := stdout_written t;
     stdout_write_error := stdout_write_error t;
     stdio_emitted := stdio_emitted t ++ [ev] |}.

Definition stdio_set_buffer (b : string) (t : StdioTransport)
  : StdioTransport :=
  {| stdio_connected := stdio_connected t;
     messageBuffer := b;
     stdout_written := stdout_written t;
     stdout_write_error := stdout_write_error t;
     stdio_emitted := stdio_emitted t |}.

Section Stdio.
Context `{Host}.

(** The [try] block of [StdioTransport.parseMessage], up to the
    [emit]. *)
Definition stdio_checked_message (line : string)
  : Throwing JSONRPCRequest :=
  (do message <- JSON_parse line;
   do jsonrpc <- prop (Some message) "jsonrpc";
   if negb (strict_eq_str jsonrpc "2.0") then
     Throw (ExnMCP (mkMCPError INVALID_REQUEST
                      "Invalid JSON-RPC version" None))
   else
     do method <- prop (Some message) "method";
     if negb (truthy method) || negb (String.eqb (typeof method) "string")
     then Throw (ExnMCP (mkMCPError INVALID_REQUEST
                           "Missing or invalid method field" None))
     else Return (as_request message))%T.

(** [StdioTransport.parseMessage]: an [MCPError] is thrown again as it
    is, anything else becomes a parse error. *)
Definition parseMessage (line : string) (t : StdioTransport)
  : Throwing unit * StdioTransport :=
  match stdio_checked_message line with
  | Return message => (Return tt, stdio_emit (EvMessage message) t)
  | Throw (ExnMCP error) => (Throw (ExnMCP error), t)
  | Throw (ExnError _ msg) =>
      (Throw (ExnMCP (mkMCPError PARSE_ERROR
                        ("Invalid JSON message: " +:+ msg) None)),
       t)
  end.

(** The [for] loop of [handleStdinData] over the complete lines: it
    ends at the first line whose parse throws. *)
Fixpoint parse_lines (lines : list string) (t : StdioTransport)
  : Throwing unit * StdioTransport :=
  match lines with
  | [] => (Return tt, t)
  | line :: rest =>
      if negb (String.eqb (trim line) "") then
        match parseMessage (trim line) t with
        | (Return _, t') => parse_lines rest t'
        | (Throw e, t') => (Throw e, t')
        end
      else parse_lines rest t
  end.

(** [StdioTransport.handleStdinData], [chunk] being what
    [process.stdin.read()] returned ([None] for [null]). *)
Definition handleStdinData (chunk : option string) (t : StdioTransport)
  : StdioTransport :=
  match chunk with
  | None => t
  | Some chunk =>
      let lines := split newline (messageBuffer t +:+ chunk) in
      let t1 := stdio_set_buffer (List.last lines "") t in
      match parse_lines (removelast lines) t1 with
      | (Return _, t2) => t2
      | (Throw _, t2) =>
          stdio_emit (EvError (mkMCPError PARSE_ERROR
                                 "Failed to parse stdin data" None)) t2
      end
  end.
End Stdio.

(** The ['end'] listener of stdin. *)
Definition stdio_on_end (t : StdioTransport) : StdioTransport :=
  stdio_emit EvClose
    {| stdio_connected := false;
       messageBuffer := messageBuffer t;
       stdout_written := stdout_written t;
       stdout_write_error := stdout_write_error t;
       stdio_emitted := stdio_emitted t |}.

(** [StdioTransport.send]. *)
Definition stdio_send (message : OutMessage) (t : StdioTransport)
  : Throwing unit * StdioTransport :=
  if negb (stdio_connected t) then
    (Throw (ExnMCP (mkMCPError TRANSPORT_ERROR
                      "Stdio transport not connected" None)),
     t)
  else
    match stdout_write_error t with
    | None =>
        (Return tt,
         {| stdio_connected := stdio_connected t;
            messageBuffer := messageBuffer t;
            stdout_written := stdout_written t ++ [message];
            stdout_write_error := None;
            stdio_emitted := stdio_emitted t |})
    | Some error =>
        (Throw (ExnMCP (mkMCPError TRANSPORT_ERROR
                          "Failed to send stdio message"
                          (Some (JObj [("originalError",
                                        exn_to_json error)])))),
         t)
    end.

(** [StdioTransport.close]. *)
Definition stdio_close (t : StdioTransport)
  : Throwing unit * StdioTransport :=
  if stdio_connected t then
    (Return tt,
     {| stdio_connected := false;
        messageBuffer := messageBuffer t;
        stdout_written := stdout_written t;
        stdout_write_error := stdout_write_error t;
        stdio_emitted := stdio_emitted t |})
  else (Return tt, t).

Definition stdio_isConnected (t : StdioTransport) : bool := stdio_connected t.

(** The [MCPTransport] interface and its two implementations. *)
Inductive MCPTransport : Type :=
| WebSocket (t : WebSocketTransport)
| Stdio (t : StdioTransport).

Definition send (message : OutMessage) (transport : MCPTransport)
  : Throwing unit * MCPTransport :=
  match transport with
  | WebSocket t => let '(r, t') := ws_send message t in (r, WebSocket t')
  | Stdio t => let '(r, t') := stdio_send message t in (r, Stdio t')
  end.

Definition close (transport : MCPTransport) : Throwing unit * MCPTransport :=
  match transport with
  | WebSocket t => let '(r, t') := ws_close t in (r, WebSocket t')
  | Stdio t => let '(r, t') := stdio_close t in (r, Stdio t')
  end.

Definition isConnected (transport : MCPTransport) : bool :=
  match transport with
  | WebSocket t => ws_isConnected t
  | Stdio t => stdio_isConnected t
  end.

(** What the transport has put on its channel so far. *)
Definition delivered (transport : MCPTransport) : list OutMessage :=
  match transport with
  | WebSocket t => socket_sent (ws_socket t)
  | Stdio t => stdout_written t
  end.

(** Whether writing to the underlying channel throws. *)
Definition channel_error (transport : MCPTransport) : option exn :=
  match transport with
  | WebSocket t => socket_emit_error (ws_socket t)
  | Stdio t => stdout_write_error t
  end.

(** ** Transport registry ([MCPTransportManager])

    The [Map] of transports, in insertion order.  Each entry holds its
    own transport object. *)

Record LogEntry : Type := mkLogEntry {
  log_message : string;
  log_transportId : string;
  log_error : string
}.

Record MCPTransportManager : Type := mkManager {
  transports : list (string * MCPTransport);
  manager_log : list LogEntry
}.

Definition getTransport (id : string) (m : MCPTransportManager)
  : option MCPTransport :=
  snd <$> List.find (fun e => String.eqb (fst e) id) (transports m).

(** [addTransport]. *)
Definition addTransport (id : string) (transport : MCPTransport)
    (m : MCPTransportManager) : Throwing unit * MCPTransportManager :=
  match getTransport id m with
  | Some _ =>
      (Throw (ExnMCP (mkMCPError INTERNAL_ERROR
                        ("Transport with id '" +:+ id +:+ "' already exists")
                        None)),
       m)
  | None =>
      (Return tt,
       {| transports := transports m ++ [(id, transport)];
          manager_log := manager_log m |})
  end.

(** [removeTransport]. *)
Definition removeTransport (id : string) (m : MCPTransportManager)
  : MCPTransportManager :=
  {| transports :=
       List.filter (fun e => negb (String.eqb (fst e) id)) (transports m);
     manager_log := manager_log m |}.

(** The callback [broadcast] maps over the entries: the [try] with the
    connectivity test and the send, and the [catch] that logs.  It
    returns the outcome of the callback, the entry after it and what was
    logged. *)
Definition broadcast_entry (message : OutMessage)
    (entry : string * MCPTransport)
  : Throwing unit * (string * MCPTransport) * list LogEntry :=
  let '(id, transport) := entry in
  if isConnected transport then
    match send message transport with
    | (Return _, transport') => (Return tt, (id, transport'), [])
    | (Throw error, transport') =>
        (Return tt, (id, transport'),
         [{| log_message := "Failed to broadcast to transport";
             log_transportId := id;
             log_error := exn_message error |}])
    end
  else (Return tt, (id, transport), []).

(** [Promise.allSettled]: waits for every outcome and never rejects. *)
Definition Promise_allSettled (outcomes : list (Throwing unit))
  : Throwing unit := Return tt.

(** [broadcast]. *)
Definition broadcast (message : JSONRPCNotification)
    (m : MCPTransportManager) : Throwing unit * MCPTransportManager :=
  let results := map (broadcast_entry (OutNotification message))
                     (transports m) in
  (Promise_allSettled (map (fun r => fst (fst r)) results),
   {| transports := map (fun r => snd (fst r)) results;
      manager_log := manager_log m ++ concat (map snd results) |}).

(** [closeAll]. *)
Definition closeAll (m : MCPTransportManager)
  : Throwing unit * MCPTransportManager :=
  (Promise_allSettled (map (fun e => fst (close (snd e))) (transports m)),
   {| transports := []; manager_log := manager_log m |}).

Definition getActiveCount (m : MCPTransportManager) : nat :=
  length (List.filter (fun e => isConnected (snd e)) (transports m)).

(** ** The server's message listener (server.ts, [setupSocketIO]) *)

Section Server.
Context `{Host}.

(** The listener the server installs on each transport: dispatch the
    message and send the response; a failure of the send is caught and
    logged. *)
Definition on_transport_message (handlers : gmap string BaseMCPHandler)
    (message : JSONRPCRequest) (transport : WebSocketTransport)
  : WebSocketTransport :=
  let response := handleRequest handlers message in
  match ws_send (OutResponse response) transport with
  | (Return _, transport') => transport'
  | (Throw _, transport') => transport'
  end.

(** A payload arriving on the socket of a connection: the transport's
    listener runs, and the server's listener runs on each message the
    transport emitted for that payload. *)
Definition connection_receive (handlers : gmap string BaseMCPHandler)
    (data : jsval) (transport : WebSocketTransport) : WebSocketTransport :=
  let t1 := ws_on_socket_message data transport in
  fold_left
    (fun t ev =>
       match ev with
       | EvMessage message => on_transport_message handlers message t
       | _ => t
       end)
    (drop (length (ws_emitted transport)) (ws_emitted t1)) t1.

(** The handlers of [registerHandlers] that are modelled here, in the
    order the server registers them. *)
Definition modelled_handlers (serverInfo : ServerInfo) (tools : ToolBodies)
  : list BaseMCPHandler :=
  [InitializeHandler serverInfo; InitializedHandler;
   ToolsCallHandler tools].
End Server.

(** ** A deployment for evaluation

    The server of [main()] in a process whose environment sets none of
    the [NOTION_*_DB_ID] variables, so that no tool reaches the Notion
    client. *)

(** [JSON.stringify(v, null, 2)]. *)
Module Stringify.

Definition hex_digit (n : nat) : ascii :=
  if n <? 10 then ascii_of_nat (48 + n) else ascii_of_nat (87 + n).

Definition escape_char (c : ascii) : string :=
  let n := nat_of_ascii c in
  if n =? 34 then String (ascii_of_nat 92) (String c EmptyString)
  else if n =? 92 then String c (String c EmptyString)
  else if n =? 8 then String (ascii_of_nat 92) "b"
  else if n =? 12 then String (ascii_of_nat 92) "f"
  else if n =? 10 then String (ascii_of_nat 92) "n"
  else if n =? 13 then String (ascii_of_nat 92) "r"
  else if n =? 9 then String (ascii_of_nat 92) "t"
  else if n <? 32 then
    String (ascii_of_nat 92)
      ("u00" +:+ String (hex_digit (n / 16))
                   (String (hex_digit (n mod 16)) EmptyString))
  else String c EmptyString.

Fixpoint escape (s : string) : string :=
  match s with
  | EmptyString => EmptyString
  | String c s' => escape_char c +:+ escape s'
  end.

Definition quote (s : string) : string :=
  HostModel.dquote +:+ escape s +:+ HostModel.dquote.

Fixpoint spaces (n : nat) : string :=
  match n with
  | O => EmptyString
  | S n' => String (ascii_of_nat 32) (spaces n')
  end.

Definition nl : string := String newline EmptyString.

Fixpoint stringify_at (indent : nat) (v : json) {struct v} : string :=
  match v with
  | JNull => "null"
  | JBool true => "true"
  | JBool false => "false"
  | JNum n => string_of_Z n
  | JStr s => quote s
  | JArr [] => "[]"
  | JArr items =>
      "[" +:+ nl +:+
      join ("," +:+ nl)
        (map (fun x => spaces (indent + 2) +:+ stringify_at (indent + 2) x)
             items)
      +:+ nl +:+ spaces indent +:+ "]"
  | JObj [] => "{}"
  | JObj fields =>
      "{" +:+ nl +:+
      join ("," +:+ nl)
        (map (fun '(k, x) =>
                spaces (indent + 2) +:+ quote k +:+ ": "
                  +:+ stringify_at (indent + 2) x)
             fields)
      +:+ nl +:+ spaces indent +:+ "}"
  end.

Definition stringify (v : json) : string := stringify_at 0 v.

End Stringify.

Module NoNotion.

Definition getCareerInitiatives (args : json) : Throwing json :=
  Throw (ExnMCP (createError INTERNAL_ERROR
                   "Notion initiatives database ID not configured" None)).

Definition getAchievements (args : json) : Throwing json :=
  Throw (ExnMCP (createError INTERNAL_ERROR
                   "Notion achievements database ID not configured" None)).

Definition getTasks (args : json) : Throwing json :=
  Throw (ExnMCP (createError INTERNAL_ERROR
                   "Notion tasks database ID not configured" None)).

Definition text_content (text : string) : json :=
  JObj [("content", JArr [JObj [("type", JStr "text");
                                ("text", JStr text)]])].

(** The fields of an object literal whose value is not [undefined]
    ([JSON.stringify] leaves the others out). *)
Definition defined_fields (fields : list (string * jsval))
  : list (string * json) :=
  omap (fun kv => match snd kv with
                  | Some v => Some (fst kv, v)
                  | None => None
                  end) fields.

(** With no database configured every [case] of the loop body is a
    no-op, so only the iteration itself is observable: [for ... of]
    throws on a value that is not iterable. *)
Definition searchCareerData (args : json) : Throwing json :=
  (do query <- prop (Some args) "query";
   do data_types <- prop (Some args) "data_types";
   let dataTypes :=
     js_or data_types
       (JArr [JStr "initiatives"; JStr "achievements"; JStr "tasks"]) in
   match dataTypes with
   | JArr _ | JStr _ =>
       Return (text_content
                 (Stringify.stringify
                    (JObj (defined_fields [("query", query);
                                           ("results", Some (JObj []))]))))
   | _ => Throw (ExnError "TypeError" "dataTypes is not iterable")
   end)%T.

Definition getSkillAnalysis (args : json) : Throwing json :=
  (do analysis_type <- prop (Some args) "analysis_type";
   let analysisType := js_or analysis_type (JStr "frequency") in
   Return (text_content
             (Stringify.stringify
                (JObj [
                   ("analysis_type", analysisType);
                   ("message", JStr "Skill analysis feature coming soon");
                   ("placeholder_data",
                     JObj [
                       ("top_skills",
                         JArr [JStr "TypeScript"; JStr "React";
                               JStr "Node.js"; JStr "Docker"; JStr "AWS"]);
                       ("skill_frequency",
                         JObj [("TypeScript", JNum 15); ("React", JNum 12);
                               ("Node.js", JNum 10); ("Docker", JNum 8);
                               ("AWS", JNum 7)])])]))))%T.

Definition tools : ToolBodies :=
  mkToolBodies getCareerInitiatives getAchievements getTasks
    searchCareerData getSkillAnalysis.

End NoNotion.

(** Sample inputs: the server of [main()], fresh transports, and a few
    requests. *)
Module Sample.

Definition serverInfo : ServerInfo :=
  {| si_name := "mcp-career-intelligence-server"; si_version := "1.0.0" |}.

(** The registry after the registrations of [modelled_handlers]. *)
Definition handlers : gmap string BaseMCPHandler :=
  snd (register_all (modelled_handlers serverInfo NoNotion.tools) ∅).

(** A socket transport right after its constructor, on a live socket. *)
Definition ws : WebSocketTransport :=
  {| ws_socket := {| socket_connected := true;
                     socket_emit_error := None;
                     socket_sent := [] |};
     ws_connected := true;
     ws_emitted := [] |}.

(** A socket transport whose peer has disconnected. *)
Definition ws_gone : WebSocketTransport := ws_on_socket_disconnect ws.

(** A stdio transport right after its constructor. *)
Definition stdio : StdioTransport :=
  {| stdio_connected := true;
     messageBuffer := "";
     stdout_written := [];
     stdout_write_error := None;
     stdio_emitted := [] |}.

(** A stdio transport whose standard output is broken. *)
Definition stdio_broken : StdioTransport :=
  {| stdio_connected := true;
     messageBuffer := "";
     stdout_written := [];
     stdout_write_error := Some (ExnError "Error" "write EPIPE");
     stdio_emitted := [] |}.

Definition envelope (version : string) (id : jsval) (method : string)
    (params : jsval) : json :=
  JObj (NoNotion.defined_fields
          [("jsonrpc", Some (JStr version)); ("id", id);
           ("method", Some (JStr method)); ("params", params)]).

Definition tools_call_unknown : json :=
  envelope "2.0" (Some (JNum 7)) "tools/call"
    (Some (JObj [("name", JStr "nope")])).

Definition initialized_notification : json :=
  envelope "2.0" None "initialized" None.

Definition old_version_ping : json :=
  envelope "1.0" (Some (JNum 1)) "ping" None.

Definition old_version_initialize : json :=
  envelope "1.0" (Some (JNum 1)) "initialize" None.

Definition initialize_params (version : string) (capabilities : json)
  : json :=
  JObj [("protocolVersion", JStr version);
        ("capabilities", capabilities);
        ("clientInfo", JObj [("name", JStr "claude-ai");
                             ("version", JStr "0.1.0")])].

Definition initialize (version : string) (capabilities : json) : json :=
  envelope "2.0" (Some (JNum 1)) "initialize"
    (Some (initialize_params version capabilities)).

Definition list_changed : JSONRPCNotification :=
  {| ntf_jsonrpc := "2.0";
     ntf_method := "notifications/tools/list_changed";
     ntf_params := None |}.

(** The text of a one-line message on the byte stream. *)
Definition q : string := HostModel.dquote.

Definition line_ping (version : string) : string :=
  "{" +:+ q +:+ "jsonrpc" +:+ q +:+ ":" +:+ q +:+ version +:+ q +:+ ","
    +:+ q +:+ "id" +:+ q +:+ ":1,"
    +:+ q +:+ "method" +:+ q +:+ ":" +:+ q +:+ "ping" +:+ q +:+ "}".

Definition nl : string := String newline EmptyString.

End Sample.

(** * The rest of the engine *)

(** ** Parameter sanitizing (handlers/base.handler.ts) *)

Definition sensitiveFields : list string :=
  ["password"; "token"; "secret"; "key"; "authorization"].

(** The own enumerable properties an object spread copies: the fields of
    an object, the indexed elements of an array. *)
Definition spread (v : json) : list (string * json) :=
  match v with
  | JObj fields => fields
  | JArr items => imap (fun i x => (string_of_Z (Z.of_nat i), x)) items
  | _ => []
  end.

(** One round of the loop: [if (field in sanitized) sanitized[field] =
    '[REDACTED]']. *)
Definition redact (sanitized : list (string * json)) (field : string)
  : list (string * json) :=
  match obj_get field sanitized with
  | Some _ => obj_set field (JStr "[REDACTED]") sanitized
  | None => sanitized
  end.

(** [sanitizeParams]. *)
Definition sanitizeParams (params : jsval) : jsval :=
  if negb (truthy params) || negb (String.eqb (typeof params) "object")
  then params
  else Some (JObj (fold_left redact sensitiveFields
                     (spread (default JNull params)))).

(** ** Tool listing (handlers/tools.handler.ts) *)

Definition cursor_schema : JoiSchema :=
  Joi_object (Some [("cursor", Joi_optional Joi_string)]).

Definition limit_property (what : string) : string * json :=
  ("limit", JObj [("type", JStr "number");
                  ("minimum", JNum 1);
                  ("maximum", JNum 100);
                  ("default", JNum 20);
                  ("description", JStr what)]).

Definition string_enum (values : list string) (description : string) : json :=
  JObj [("type", JStr "string");
        ("enum", JArr (JStr <$> values));
        ("description", JStr description)].

Definition date_pair (first second description : string) : json :=
  JObj [("type", JStr "object");
        ("properties",
          JObj [(first, JObj [("type", JStr "string");
                              ("format", JStr "date")]);
                (second, JObj [("type", JStr "string");
                               ("format", JStr "date")])]);
        ("description", JStr description)].

Definition tool (name description : string)
    (properties : list (string * json)) (required : list string) : json :=
  JObj [("name", JStr name);
        ("description", JStr description);
        ("inputSchema",
          JObj [("type", JStr "object");
                ("properties", JObj properties);
                ("required", JArr (JStr <$> required))])].

(** The array [tools] of [ToolsListHandler.execute]. *)
Definition tools_listed : list json :=
  [ tool "get_career_initiatives"
      "Retrieve current career development initiatives from Notion database"
      [("status",
         string_enum ["Active"; "Completed"; "On Hold"; "Cancelled"]
           "Filter by initiative status");
       ("priority",
         string_enum ["High"; "Medium"; "Low"] "Filter by priority level");
       limit_property "Maximum number of initiatives to return"]
      [];
    tool "get_achievements"
      "Fetch accomplishments and achievements from career database"
      [("category",
         string_enum ["Technical/SWE"; "Business/Leadership"; "Academic";
                      "Networking"]
           "Filter by achievement category");
       ("skills",
         JObj [("type", JStr "array");
               ("items", JObj [("type", JStr "string")]);
               ("description", JStr "Filter by skills used in achievements")]);
       ("date_range", date_pair "start" "end" "Date range filter");
       limit_property "Maximum number of achievements to return"]
      [];
    tool "get_tasks"
      "Get current career development tasks and action items"
      [("status",
         string_enum ["Not Started"; "In Progress"; "Completed"; "Blocked"]
           "Filter by task status");
       ("priority",
         string_enum ["High"; "Medium"; "Low"] "Filter by priority level");
       ("initiative_id",
         JObj [("type", JStr "string");
               ("description", JStr "Filter by related initiative ID")]);
       ("due_date", date_pair "before" "after" "Due date filter");
       limit_property "Maximum number of tasks to return"]
      [];
    tool "search_career_data"
      "Search across all career data (initiatives, achievements, tasks)"
      [("query",
         JObj [("type", JStr "string");
               ("minLength", JNum 1);
               ("description", JStr "Search query text")]);
       ("data_types",
         JObj [("type", JStr "array");
               ("items",
                 JObj [("type", JStr "string");
                       ("enum", JArr [JStr "initiatives";
                                      JStr "achievements";
                                      JStr "tasks"])]);
               ("default", JArr [JStr "initiatives"; JStr "achievements";
                                 JStr "tasks"]);
               ("description", JStr "Types of data to search")]);
       limit_property "Maximum number of results to return"]
      ["query"];
    tool "get_skill_analysis"
      "Analyze skills and competencies based on career data"
      [("analysis_type",
         JObj [("type", JStr "string");
               ("enum", JArr [JStr "frequency"; JStr "proficiency";
                              JStr "growth"; JStr "gaps"]);
               ("default", JStr "frequency");
               ("description", JStr "Type of skill analysis to perform")]);
       ("time_period", date_pair "start" "end" "Time period for analysis");
       ("target_role",
         JObj [("type", JStr "string");
               ("description", JStr "Target role for gap analysis")])]
      [] ].

(** [ToolsListHandler]: [nextCursor] is [undefined], an absent field. *)
Definition ToolsListHandler : BaseMCPHandler :=
  {| h_method := "tools/list";
     getParamsSchema := Some cursor_schema;
     execute := fun _ _ => Return (JObj [("tools", JArr tools_listed)]) |}.

(** ** Resources (handlers/resources.handler.ts) *)

Definition resource (key uri name description mimeType : string) : json :=
  JObj [(key, JStr uri); ("name", JStr name);
        ("description", JStr description); ("mimeType", JStr mimeType)].

Definition resources_listed : list json :=
  [ resource "uri" "notion://initiatives" "Career Initiatives"
      "Current career development initiatives and projects"
      "application/json";
    resource "uri" "notion://achievements" "Career Achievements"
      "Comprehensive record of career accomplishments" "application/json";
    resource "uri" "notion://tasks" "Career Tasks"
      "Action items and tasks for career development" "application/json";
    resource "uri" "notion://career-summary" "Career Summary"
      "Comprehensive career overview and analysis" "text/markdown" ].

(** [ResourcesListHandler]. *)
Definition ResourcesListHandler : BaseMCPHandler :=
  {| h_method := "resources/list";
     getParamsSchema := Some cursor_schema;
     execute := fun _ _ =>
       Return (JObj [("resources", JArr resources_listed);
                     ("nextCursor", JStr "cursor-123")]) |}.

Definition resourceTemplates_listed : list json :=
  [ resource "uriTemplate" "notion://initiatives/{id}" "Specific Initiative"
      "Individual career initiative by ID" "application/json";
    resource "uriTemplate" "notion://achievements/{id}" "Specific Achievement"
      "Individual achievement by ID" "application/json";
    resource "uriTemplate" "notion://tasks/{id}" "Specific Task"
      "Individual task by ID" "application/json";
    resource "uriTemplate" "notion://search/{query}" "Career Data Search"
      "Search results across all career data" "application/json" ].

(** [ResourceTemplatesListHandler]: [nextCursor] is [undefined]. *)
Definition ResourceTemplatesListHandler : BaseMCPHandler :=
  {| h_method := "resources/templates/list";
     getParamsSchema := Some cursor_schema;
     execute := fun _ _ =>
       Return (JObj [("resourceTemplates", JArr resourceTemplates_listed)]) |}.

Definition uri_schema : JoiSchema :=
  Joi_object (Some [("uri", Joi_required Joi_string)]).

(** [s.replace(pattern, replacement)] for a string pattern and a
    replacement without special patterns: the first occurrence only. *)
Fixpoint replace_first (pattern replacement s : string) : string :=
  if String.prefix pattern s then
    replacement +:+ String.substring (String.length pattern)
                      (String.length s - String.length pattern) s
  else match s with
       | EmptyString => EmptyString
       | String c s' => String c (replace_first pattern replacement s')
       end.

(** The readers of [ResourcesReadHandler] query the Notion workspace
    (the summary embeds the current date); [decodeURIComponent] is the
    host's, and throws on a malformed escape. *)
Record ResourceReaders : Type := mkResourceReaders {
  readInitiatives : list string -> Throwing json;
  readAchievements : list string -> Throwing json;
  readTasks : list string -> Throwing json;
  readCareerSummary : Throwing json;
  readSearchResults : string -> Throwing json;
  decodeURIComponent : string -> Throwing string
}.

Definition slash : ascii := ascii_of_nat 47.

(** The [switch] of [ResourcesReadHandler.execute]. *)
Definition ResourcesReadHandler_switch (readers : ResourceReaders)
    (pathParts : list string) : Throwing json :=
  let resourceType := hd "" pathParts in
  if String.eqb resourceType "initiatives" then
    readInitiatives readers pathParts
  else if String.eqb resourceType "achievements" then
    readAchievements readers pathParts
  else if String.eqb resourceType "tasks" then
    readTasks readers pathParts
  else if String.eqb resourceType "career-summary" then
    readCareerSummary readers
  else if String.eqb resourceType "search" then
    match pathParts with
    | _ :: encoded :: _ =>
        (do query <- decodeURIComponent readers encoded;
         readSearchResults readers query)%T
    | _ =>
        Throw (ExnMCP (createError INVALID_PARAMS "Search query required" None))
    end
  else
    Throw (ExnMCP (createError RESOURCE_NOT_FOUND
                     ("Unknown resource type: " +:+ resourceType) None)).

(** [ResourcesReadHandler.execute]: the scheme test, then the [switch]
    inside [try], and the [catch] that turns a failure whose message
    mentions the Notion API into an internal error. *)
Definition ResourcesReadHandler_execute (readers : ResourceReaders)
    (params : jsval) (request : JSONRPCRequest) : Throwing json :=
  (do uri <- prop params "uri";
   match uri with
   | None =>
       Throw (ExnError "TypeError"
                "Cannot read properties of undefined (reading 'startsWith')")
   | Some JNull =>
       Throw (ExnError "TypeError"
                "Cannot read properties of null (reading 'startsWith')")
   | Some (JStr uri) =>
       if negb (String.prefix "notion://" uri) then
         Throw (ExnMCP (createError RESOURCE_NOT_FOUND
                          ("Unsupported URI scheme: " +:+ uri) None))
       else
         let path := replace_first "notion://" "" uri in
         let pathParts := split slash path in
         match ResourcesReadHandler_switch readers pathParts with
         | Return contents => Return contents
         | Throw error =>
             if includes (exn_message error) "Notion API" then
               Throw (ExnMCP (createError INTERNAL_ERROR
                                ("Failed to read resource: "
                                   +:+ exn_message error) None))
             else Throw error
         end
   | Some _ => Throw (ExnError "TypeError" "uri.startsWith is not a function")
   end)%T.

Definition ResourcesReadHandler (readers : ResourceReaders) : BaseMCPHandler :=
  {| h_method := "resources/read";
     getParamsSchema := Some uri_schema;
     execute := ResourcesReadHandler_execute readers |}.

(** [ResourcesSubscribeHandler] and [ResourcesUnsubscribeHandler]: the
    logging call reads [params.uri], then [{}] is returned. *)
Definition acknowledge_uri (params : jsval) (request : JSONRPCRequest)
  : Throwing json :=
  (do uri <- prop params "uri"; Return (JObj []))%T.

Definition ResourcesSubscribeHandler : BaseMCPHandler :=
  {| h_method := "resources/subscribe";
     getParamsSchema := Some uri_schema;
     execute := acknowledge_uri |}.

Definition ResourcesUnsubscribeHandler : BaseMCPHandler :=
  {| h_method := "resources/unsubscribe";
     getParamsSchema := Some uri_schema;
     execute := acknowledge_uri |}.

(** ** Server wiring (server.ts) *)

(** The handlers of [registerHandlers], in the order of its calls. *)
Definition registerHandlers_list (serverInfo : ServerInfo)
    (tools : ToolBodies) (readers : ResourceReaders) : list BaseMCPHandler :=
  [InitializeHandler serverInfo; InitializedHandler;
   ToolsListHandler; ToolsCallHandler tools;
   ResourcesListHandler; ResourceTemplatesListHandler;
   ResourcesReadHandler readers;
   ResourcesSubscribeHandler; ResourcesUnsubscribeHandler].

(** [registerHandlers] on the fresh registry of [setupMCP]. *)
Definition registerHandlers (serverInfo : ServerInfo)
    (tools : ToolBodies) (readers : ResourceReaders)
  : Throwing unit * gmap string BaseMCPHandler :=
  register_all (registerHandlers_list serverInfo tools readers) ∅.

(** ** Transport factory (mcp/transport.ts) *)

Inductive MCPTransportType : Type := stdio_type | websocket_type | sse_type.

Definition transport_type_name (t : MCPTransportType) : string :=
  match t with
  | stdio_type => "stdio"
  | websocket_type => "websocket"
  | sse_type => "sse"
  end.

(** The constructor of [WebSocketTransport]: listeners are installed and
    [connected] is set. *)
Definition new_WebSocketTransport (socket : Socket) : WebSocketTransport :=
  {| ws_socket := socket; ws_connected := true; ws_emitted := [] |}.

(** The constructor of [StdioTransport], on a standard output that
    throws [write_error] when written to, if it does. *)
Definition new_StdioTransport (write_error : option exn) : StdioTransport :=
  {| stdio_connected := true;
     messageBuffer := "";
     stdout_written := [];
     stdout_write_error := write_error;
     stdio_emitted := [] |}.

(** [MCPTransportFactory.createTransport]; [socket] is
    [context?.socket], and [write_error] describes the process's standard
    output. *)
Definition createTransport (type : MCPTransportType) (socket : option Socket)
    (write_error : option exn) : Throwing MCPTransport :=
  match type with
  | websocket_type =>
      match socket with
      | None =>
          Throw (ExnMCP (mkMCPError INITIALIZATION_FAILED
                           "WebSocket transport requires socket context"
                           None))
      | Some s => Return (WebSocket (new_WebSocketTransport s))
      end
  | stdio_type => Return (Stdio (new_StdioTransport write_error))
  | sse_type =>
      Throw (ExnMCP (mkMCPError INITIALIZATION_FAILED
                       ("Unsupported transport type: "
                          +:+ transport_type_name type) None))
  end.

(** ** Statement helpers for the listings and the readers *)

(** The string at [key] of each object of a list. *)
Definition strings_at (key : string) (objects : list json) : list string :=
  omap (fun o => match o with
                 | JObj fields =>
                     match obj_get key fields with
                     | Some (JStr s) => Some s
                     | _ => None
                     end
                 | _ => None
                 end) objects.

(** The [catch] of [ResourcesReadHandler.execute], applied to what the
    [switch] did. *)
Definition mask_notion_failure (outcome : Throwing json) : Throwing json :=
  match outcome with
  | Return contents => Return contents
  | Throw error =>
      if includes (exn_message error) "Notion API" then
        Throw (ExnMCP (createError INTERNAL_ERROR
                         ("Failed to read resource: " +:+ exn_message error)
                         None))
      else Throw error
  end.

(** Sample resource readers: no database is configured, so the three
    database readers stop at their guard; the summary and the search
    give sample contents, and no escape needs decoding. *)
Module Offline.

Definition not_configured (what : string) : Throwing json :=
  Throw (ExnMCP (createError INTERNAL_ERROR
                   ("Notion " +:+ what +:+ " database ID not configured")
                   None)).

Definition contents (uri mimeType text : string) : json :=
  JObj [("contents", JArr [JObj [("uri", JStr uri);
                                 ("mimeType", JStr mimeType);
                                 ("text", JStr text)]])].

Definition readers : ResourceReaders :=
  {| readInitiatives := fun _ => not_configured "initiatives";
     readAchievements := fun _ => not_configured "achievements";
     readTasks := fun _ => not_configured "tasks";
     readCareerSummary :=
       Return (contents "notion://career-summary" "text/markdown"
                 "# Mark Cena - Career Intelligence Summary");
     readSearchResults := fun query =>
       Return (contents ("notion://search/" +:+ query) "application/json"
                 "{}");
     decodeURIComponent := fun encoded => Return encoded |}.

End Offline.

(** The ids of the transport registry, in insertion order. *)
Definition transport_ids (m : MCPTransportManager) : list string :=
  fst <$> transports m.

(** What the [catch] of [broadcast] logs for a transport whose send
    failed. *)
Definition broadcast_failure (entry : string * MCPTransport) : LogEntry :=
  {| log_message := "Failed to broadcast to transport";
     log_transportId := fst entry;
     log_error := match snd entry with
                  | WebSocket _ => "Failed to send WebSocket message"
                  | Stdio _ => "Failed to send stdio message"
                  end |}.

(** Whether [broadcast] attempts a send on the entry and the send
    fails. *)
Definition send_fails (entry : string * MCPTransport) : bool :=
  isConnected (snd entry) && bool_decide (is_Some (channel_error (snd entry))).

(** * Properties *)

(** ** Shapes *)


(** The wire code of the error a response carries, if it carries one. *)
Definition error_code (r : JSONRPCResponse) : option Z :=
  code <$> res_error r.

(** Every key of the registry is the method of the handler bound to it. *)
Definition keyed (handlers : gmap string BaseMCPHandler) : Prop :=
  forall m h, handlers !! m = Some h -> h_method h = m.

(** The interface [InitializeParams] of types/mcp.types.ts. *)
Definition is_InitializeParams (p : json) : bool :=
  match p with
  | JObj fields =>
      match obj_get "protocolVersion" fields, obj_get "capabilities" fields,
            obj_get "clientInfo" fields with
      | Some (JStr _), Some (JObj _), Some (JObj clientInfo) =>
          match obj_get "name" clientInfo, obj_get "version" clientInfo with
          | Some (JStr _), Some (JStr _) => true
          | _, _ => false
          end
      | _, _, _ => false
      end
  | _ => false
  end.

(** The response the dispatcher synthesizes for an unbound method. *)
Definition method_not_found_response (request : JSONRPCRequest)
  : JSONRPCResponse :=
  {| res_jsonrpc := "2.0"; res_id := req_id request;
     res_result := None;
     res_error :=
       Some {| code := (-32601)%Z;
               message := "Method '" +:+ js_String (req_method request)
                            +:+ "' not found";
               data := None |} |}.

(** The [execute] stage of [h] ran on this request and threw a
    MethodNotFound error of its own. *)
Definition execute_threw_method_not_found `{Host} (h : BaseMCPHandler)
    (request : JSONRPCRequest) : Prop :=
  strict_eq_str (req_jsonrpc request) "2.0" = true /\
  exists params msg d,
    validateParams h (req_params request) = Return params /\
    execute h params request
      = Throw (ExnMCP (mkMCPError METHOD_NOT_FOUND msg d)).

(** Whether a character occurs in a string. *)
Fixpoint contains_char (c : ascii) (s : string) : bool :=
  match s with
  | EmptyString => false
  | String c' s' => Ascii.eqb c' c || contains_char c s'
  end.

(** A request that passes the first two stages of the pipeline of
    [initialize]: version and method are right, the schema validation
    accepts the parameters, and the accepted value, the object of
    [fields], has the declared shape. *)
Definition accepted_initialize `{Host} (request : JSONRPCRequest)
    (fields : list (string * json)) : Prop :=
  strict_eq_str (req_jsonrpc request) "2.0" = true /\
  strict_eq_str (req_method request) "initialize" = true /\
  Joi_validate InitializeHandler_schema (req_params request)
    = JoiValue (Some (JObj fields)) /\
  is_InitializeParams (JObj fields) = true.

(** ** General facts *)

Lemma code_value_inj (c1 c2 : MCPErrorCode) :
  code_value c1 = code_value c2 -> c1 = c2.
Proof. destruct c1, c2; simpl; intros E; first [reflexivity | discriminate E]. Qed.

Lemma strict_eq_str_true (v : jsval) (lit : string) :
  strict_eq_str v lit = true <-> v = Some (JStr lit).
Proof.
  unfold strict_eq_str. split.
  - destruct v as [[| | |s| |]|]; try discriminate.
    intros E. apply String.eqb_eq in E. by subst.
  - intros ->. apply String.eqb_refl.
Qed.

Section HandlerFacts.
Context `{Host}.


Lemma handle_Return (h : BaseMCPHandler) (request : JSONRPCRequest)
    (result : json) :
  pipeline h request = Return result ->
  handle h request =
    {| res_jsonrpc := "2.0"; res_id := req_id request;
       res_result := Some result; res_error := None |}.
Proof. unfold handle. by intros ->. Qed.

Lemma handle_Throw_MCP (h : BaseMCPHandler) (request : JSONRPCRequest)
    (e : MCPError) :
  pipeline h request = Throw (ExnMCP e) ->
  handle h request =
    {| res_jsonrpc := "2.0"; res_id := req_id request;
       res_result := None; res_error := Some (toJSONRPCError e) |}.
Proof. unfold handle. by intros ->. Qed.


(** A request with a wrong version fails the first stage. *)
Lemma pipeline_wrong_version (h : BaseMCPHandler)
    (request : JSONRPCRequest) :
  strict_eq_str (req_jsonrpc request) "2.0" = false ->
  pipeline h request =
    Throw (ExnMCP (mkMCPError INVALID_REQUEST
                     "Invalid JSON-RPC version" None)).
Proof. intros E. unfold pipeline, validateRequest. by rewrite E. Qed.

Lemma register_keyed (h : BaseMCPHandler)
    (handlers : gmap string BaseMCPHandler) :
  keyed handlers -> keyed (snd (register h handlers)).
Proof.
  intros K. unfold register.
  destruct (handlers !! h_method h) eqn:E; simpl; [exact K|].
  intros m h'. rewrite lookup_insert.
  case_decide as D; [|by apply K].
  intros [= <-]. exact D.
Qed.

Lemma register_all_keyed (hs : list BaseMCPHandler)
    (handlers : gmap string BaseMCPHandler) :
  keyed handlers -> keyed (snd (register_all hs handlers)).
Proof.
  revert handlers. induction hs as [|h hs IH]; intros handlers K; [exact K|].
  simpl. pose proof (register_keyed h handlers K) as K'.
  destruct (register h handlers) as [[u|e] handlers']; simpl in *.
  - by apply IH.
  - exact K'.
Qed.

Lemma empty_keyed : keyed ∅.
Proof. intros m h. by rewrite lookup_empty. Qed.
End HandlerFacts.

(** ** The dispatcher and the handler pipeline *)


(** The core of [register] on a bound name. *)
Lemma register_bound (handlers : gmap string BaseMCPHandler)
    (first second : BaseMCPHandler) :
  handlers !! h_method second = Some first ->
  register second handlers =
    (Throw (ExnError "Error"
              ("Handler for method '" +:+ h_method second
                 +:+ "' is already registered")),
     handlers).
Proof. intros Bound. unfold register. by rewrite Bound. Qed.

(** A first registration succeeds and binds the handler. *)
Lemma register_fresh (handlers : gmap string BaseMCPHandler)
    (h : BaseMCPHandler) :
  handlers !! h_method h = None ->
  register h handlers = (Return tt, <[h_method h := h]> handlers).
Proof. intros Free. unfold register. by rewrite Free. Qed.

(** C9.  When a method name is already bound, registering a second
    handler under it throws, and the call leaves the registry as it was:
    the first handler is still the one bound to the method. *)
Theorem register_duplicate_rejected
    (handlers : gmap string BaseMCPHandler) (first second : BaseMCPHandler) :
  handlers !! h_method second = Some first ->
  (exists e, fst (register second handlers) = Throw e) /\
  snd (register second handlers) = handlers /\
  snd (register second handlers) !! h_method second = Some first.
Proof.
  intros Bound. rewrite (register_bound _ _ _ Bound). simpl. eauto.
Qed.

Lemma register_duplicate_rejected_witness :
  let impostor :=
    InitializeHandler {| si_name := "impostor"; si_version := "0.0.0" |} in
  Sample.handlers !! h_method impostor
    = Some (InitializeHandler Sample.serverInfo) /\
  (exists e, fst (register impostor Sample.handlers) = Throw e) /\
  snd (register impostor Sample.handlers) = Sample.handlers /\
  snd (register impostor Sample.handlers) !! h_method impostor
    = Some (InitializeHandler Sample.serverInfo).
Proof.
  intros impostor.
  assert (Sample.handlers !! h_method impostor
          = Some (InitializeHandler Sample.serverInfo)) as Bound
    by (vm_compute; reflexivity).
  split; [exact Bound|].
  exact (register_duplicate_rejected Sample.handlers
           (InitializeHandler Sample.serverInfo) impostor Bound).
Defined.

(** Registering a second handler right after a first one of the same
    method: the second call throws and the first handler stays. *)
Lemma register_twice (handlers : gmap string BaseMCPHandler)
    (first second : BaseMCPHandler) :
  handlers !! h_method first = None ->
  h_method second = h_method first ->
  let handlers1 := snd (register first handlers) in
  (exists e, fst (register second handlers1) = Throw e) /\
  snd (register second handlers1) !! h_method first = Some first.
Proof.
  intros Free Same handlers1.
  assert (handlers1 !! h_method second = Some first) as Bound.
  { subst handlers1. rewrite (register_fresh _ _ Free). simpl.
    rewrite Same. apply lookup_insert_eq. }
  rewrite (register_bound _ _ _ Bound). simpl.
  split; [eauto|]. by rewrite <- Same.
Qed.

(** A handler reached through the dispatcher of a keyed registry passes
    the method check of its first stage. *)
Lemma dispatched_method_matches (handlers : gmap string BaseMCPHandler)
    (request : JSONRPCRequest) (h : BaseMCPHandler) :
  keyed handlers ->
  getHandler handlers (req_method request) = Some h ->
  strict_eq_str (req_method request) (h_method h) = true.
Proof.
  intros K. unfold getHandler.
  destruct (req_method request) as [[| | |name| |]|]; try discriminate.
  intros Bound. apply K in Bound. rewrite Bound. apply String.eqb_refl.
Qed.

(** C6 (as amended).  A request whose [jsonrpc] field is not the literal
    "2.0" gets an InvalidRequest (-32600) error from every handler's
    [handle], and from the dispatcher when its method is registered; when
    the method is not registered the dispatcher answers MethodNotFound
    (-32601), the lookup coming before any structural validation. *)
Theorem wrong_version_is_invalid_request_when_routed
    `{Host} (handlers : gmap string BaseMCPHandler) (h : BaseMCPHandler)
    (request : JSONRPCRequest) :
  strict_eq_str (req_jsonrpc request) "2.0" = false ->
  (error_code (handle h request) = Some (-32600)%Z /\
   res_result (handle h request) = None) /\
  match getHandler handlers (req_method request) with
  | Some _ =>
      error_code (handleRequest handlers request) = Some (-32600)%Z /\
      res_result (handleRequest handlers request) = None
  | None => error_code (handleRequest handlers request) = Some (-32601)%Z
  end.
Proof.
  intros Wrong.
  assert (forall h', handle h' request =
            {| res_jsonrpc := "2.0"; res_id := req_id request;
               res_result := None;
               res_error := Some (toJSONRPCError
                                    (mkMCPError INVALID_REQUEST
                                       "Invalid JSON-RPC version" None)) |})
    as Handled.
  { intros h'. apply handle_Throw_MCP. by apply pipeline_wrong_version. }
  split; [by rewrite Handled|].
  unfold handleRequest.
  destruct (getHandler handlers (req_method request)) as [bound|].
  - by rewrite Handled.
  - reflexivity.
Qed.

Lemma wrong_version_is_invalid_request_when_routed_witness :
  let request := as_request Sample.old_version_initialize in
  let h := InitializeHandler Sample.serverInfo in
  strict_eq_str (req_jsonrpc request) "2.0" = false /\
  ((error_code (@handle HostModel.host h request) = Some (-32600)%Z /\
    res_result (@handle HostModel.host h request) = None) /\
   match getHandler Sample.handlers (req_method request) with
   | Some _ =>
       error_code (@handleRequest HostModel.host Sample.handlers request)
         = Some (-32600)%Z /\
       res_result (@handleRequest HostModel.host Sample.handlers request)
         = None
   | None =>
       error_code (@handleRequest HostModel.host Sample.handlers request)
         = Some (-32601)%Z
   end).
Proof.
  intros request h.
  assert (strict_eq_str (req_jsonrpc request) "2.0" = false) as Wrong
    by reflexivity.
  split; [exact Wrong|].
  exact (@wrong_version_is_invalid_request_when_routed HostModel.host
           Sample.handlers h request Wrong).
Defined.

(** C6, as stated, fails: with version "1.0" and a method that no
    handler is bound to, the dispatcher answers -32601 and not -32600. *)
Lemma wrong_version_unregistered_method_is_method_not_found :
  let request := as_request Sample.old_version_ping in
  strict_eq_str (req_jsonrpc request) "2.0" = false /\
  error_code (@handleRequest HostModel.host Sample.handlers request)
    = Some (-32601)%Z /\
  error_code (@handleRequest HostModel.host Sample.handlers request)
    <> Some (-32600)%Z.
Proof. vm_compute. repeat split; discriminate. Qed.

(** C2 (as amended).  A request whose method has no registered handler
    gets the MethodNotFound (-32601) response "Method '<m>' not found"
    from [handleRequest], which returns it rather than throwing.  The
    lookup is the only place of the dispatch path that produces the code:
    for a method that is registered (in a registry built by [register]),
    the response carries -32601 exactly when the handler's own [execute]
    threw a MethodNotFound error, as tools/call does for an unknown tool
    name. *)
Theorem method_not_found_sources
    `{Host} (handlers : gmap string BaseMCPHandler)
    (request : JSONRPCRequest) :
  keyed handlers ->
  match getHandler handlers (req_method request) with
  | None => handleRequest handlers request = method_not_found_response request
  | Some h =>
      error_code (handleRequest handlers request) = Some (-32601)%Z <->
      execute_threw_method_not_found h request
  end.
Proof.
  intros K. unfold handleRequest.
  destruct (getHandler handlers (req_method request)) as [h|] eqn:Bound;
    [|reflexivity].
  pose proof (dispatched_method_matches _ _ _ K Bound) as Routed.
  unfold execute_threw_method_not_found, error_code, handle, pipeline,
    validateRequest.
  destruct (strict_eq_str (req_jsonrpc request) "2.0") eqn:V; simpl.
  2:{ split; [discriminate|]. intros [? _]. discriminate. }
  rewrite Routed. simpl.
  destruct (validateParams h (req_params request)) as [params|e] eqn:P; simpl.
  - destruct (execute h params request) as [result|[[c msg d]|name msg]] eqn:E;
      simpl.
    + split; [discriminate|]. intros (_ & p & m & d & [= <-] & E').
      rewrite E in E'. discriminate.
    + split.
      * intros [= C]. split; [done|]. exists params, msg, d. split; [done|].
        change (-32601)%Z with (code_value METHOD_NOT_FOUND) in C.
        apply code_value_inj in C. by subst.
      * intros (_ & p & m & d' & [= <-] & E'). rewrite E in E'.
        by injection E' as -> _ _.
    + split; [discriminate|]. intros (_ & p & m & d & [= <-] & E').
      rewrite E in E'. discriminate.
  - assert (exists m d, e = ExnMCP (mkMCPError INVALID_PARAMS m d)) as (m & d & ->).
    { unfold validateParams in P.
      destruct (getParamsSchema h); [|discriminate].
      destruct (Joi_validate _ _); [discriminate|].
      injection P as <-. eauto. }
    simpl. split; [discriminate|]. intros (_ & p & ? & ? & [=] & _).
Qed.

Lemma method_not_found_sources_witness :
  let request := as_request Sample.tools_call_unknown in
  keyed Sample.handlers /\
  match getHandler Sample.handlers (req_method request) with
  | None =>
      @handleRequest HostModel.host Sample.handlers request
        = method_not_found_response request
  | Some h =>
      error_code (@handleRequest HostModel.host Sample.handlers request)
        = Some (-32601)%Z <->
      @execute_threw_method_not_found HostModel.host h request
  end.
Proof.
  intros request.
  assert (keyed Sample.handlers) as K
    by (apply register_all_keyed, empty_keyed).
  split; [exact K|].
  exact (@method_not_found_sources HostModel.host Sample.handlers request K).
Defined.

(** C2, as stated, fails in its second half: tools/call is registered,
    and a call naming an unknown tool is answered with -32601 by the
    handler, not by the dispatcher's lookup. *)
Lemma tools_call_unknown_tool_is_method_not_found :
  let request := as_request Sample.tools_call_unknown in
  getHandler Sample.handlers (req_method request)
    = Some (ToolsCallHandler NoNotion.tools) /\
  @handleRequest HostModel.host Sample.handlers request =
    {| res_jsonrpc := "2.0"; res_id := Some (JNum 7);
       res_result := None;
       res_error := Some {| code := (-32601)%Z;
                            message := "Unknown tool: nope";
                            data := None |} |}.
Proof. split; vm_compute; reflexivity. Qed.

(** What tools/call answers for a name outside its five tools. *)
Lemma tools_call_unknown_tool
    `{Host} (tools : ToolBodies) (request : JSONRPCRequest)
    (fields : list (string * json)) (name : string) :
  strict_eq_str (req_jsonrpc request) "2.0" = true ->
  strict_eq_str (req_method request) "tools/call" = true ->
  Joi_validate ToolsCallHandler_schema (req_params request)
    = JoiValue (Some (JObj fields)) ->
  obj_get "name" fields = Some (JStr name) ->
  name ∉ ["get_career_initiatives"; "get_achievements"; "get_tasks";
          "search_career_data"; "get_skill_analysis"] ->
  includes ("Unknown tool: " +:+ name) "Notion API" = false ->
  handle (ToolsCallHandler tools) request =
    {| res_jsonrpc := "2.0"; res_id := req_id request;
       res_result := None;
       res_error := Some {| code := (-32601)%Z;
                            message := "Unknown tool: " +:+ name;
                            data := None |} |}.
Proof.
  intros V M P N Unknown NoNotion.
  apply (handle_Throw_MCP _ _
           (mkMCPError METHOD_NOT_FOUND ("Unknown tool: " +:+ name) None)).
  unfold pipeline, validateRequest. rewrite V. simpl.
  change (h_method (ToolsCallHandler tools)) with "tools/call". rewrite M.
  simpl. unfold validateParams. simpl. rewrite P. simpl.
  unfold ToolsCallHandler_execute. simpl. rewrite N. simpl.
  unfold ToolsCallHandler_switch, strict_eq_str.
  repeat match goal with
  | |- context [String.eqb name ?lit] =>
      destruct (String.eqb_spec name lit) as [->|_];
      [exfalso; apply Unknown; set_solver|]
  end.
  simpl. unfold createError. simpl in NoNotion |- *. by rewrite NoNotion.
Qed.

(** A handler called directly with a request for another method
    answers MethodNotFound as well (the dispatcher never routes so). *)
Lemma misrouted_request_is_method_not_found `{Host} (h : BaseMCPHandler)
    (request : JSONRPCRequest) :
  strict_eq_str (req_jsonrpc request) "2.0" = true ->
  strict_eq_str (req_method request) (h_method h) = false ->
  error_code (handle h request) = Some (-32601)%Z /\
  res_result (handle h request) = None.
Proof.
  intros V M. unfold handle, pipeline, validateRequest.
  by rewrite V, M.
Qed.

(** ** The message codec of the transports *)

(** The socket listener emits exactly one event per payload: the
    message, or an error that always carries the parse-error code. *)
Lemma ws_on_socket_message_emits (data : jsval) (t : WebSocketTransport) :
  match ws_checked_message data with
  | Return message =>
      ws_on_socket_message data t = ws_emit (EvMessage message) t
  | Throw _ =>
      ws_on_socket_message data t =
        ws_emit (EvError (mkMCPError PARSE_ERROR
                            "Failed to parse incoming message" None)) t
  end.
Proof.
  unfold ws_on_socket_message, ws_handleMessage.
  by destruct (ws_checked_message data).
Qed.

(** The checks of the socket codec never raise a parse error: every
    rejection is an invalid request. *)
Lemma ws_checked_message_rejects_with_invalid_request (data : jsval)
    (e : exn) :
  ws_checked_message data = Throw e ->
  exists msg, e = ExnMCP (mkMCPError INVALID_REQUEST msg None).
Proof.
  unfold ws_checked_message.
  destruct (negb (truthy data) || negb (String.eqb (typeof data) "object"))
    eqn:Shape; [intros [= <-]; eauto|].
  destruct data as [[| | | |items|fields]|]; simpl in Shape;
    rewrite ?orb_true_r in Shape; try discriminate Shape; simpl.
  - intros [= <-]; eauto.
  - destruct (negb (strict_eq_str (obj_get "jsonrpc" fields) "2.0"));
      [intros [= <-]; eauto|].
    destruct (negb (truthy (obj_get "method" fields))
              || negb (String.eqb (typeof (obj_get "method" fields)) "string"));
      [intros [= <-]; eauto | discriminate].
Qed.

(** C3.  On both transports a well-formed payload that violates the
    envelope invariant (here [jsonrpc] is "1.0") is rejected by the codec
    as an invalid request, but the error event the transport emits for it
    carries the parse-error code -32700: the two kinds are not
    distinguished in the emitted error. *)
Theorem invalid_envelope_is_emitted_as_parse_error :
  let data := Some Sample.old_version_ping in
  let line := Sample.line_ping "1.0" in
  ws_checked_message data
    = Throw (ExnMCP (mkMCPError INVALID_REQUEST
                       "Invalid JSON-RPC version" None)) /\
  ws_emitted (ws_on_socket_message data Sample.ws)
    = [EvError (mkMCPError PARSE_ERROR
                  "Failed to parse incoming message" None)] /\
  fst (@parseMessage HostModel.host line Sample.stdio)
    = Throw (ExnMCP (mkMCPError INVALID_REQUEST
                       "Invalid JSON-RPC version" None)) /\
  stdio_emitted
    (@handleStdinData HostModel.host (Some (line +:+ Sample.nl)) Sample.stdio)
    = [EvError (mkMCPError PARSE_ERROR "Failed to parse stdin data" None)] /\
  code_value PARSE_ERROR = (-32700)%Z.
Proof. repeat split; vm_compute; reflexivity. Qed.

(** ** The byte-stream transport *)

Lemma split_without_separator (sep : ascii) (s : string) :
  contains_char sep s = false -> split sep s = [s].
Proof.
  induction s as [|c s IH]; simpl; [done|].
  destruct (Ascii.eqb c sep); simpl; [discriminate|].
  intros Free. by rewrite (IH Free).
Qed.

Lemma split_nonempty (sep : ascii) (s : string) :
  exists l ls, split sep s = l :: ls.
Proof.
  induction s as [|c s (l & ls & IH)]; simpl; [by eauto|].
  rewrite IH. destruct (Ascii.eqb c sep); eauto.
Qed.

Lemma split_at_first_separator (sep : ascii) (a b : string) :
  contains_char sep a = false ->
  split sep (a +:+ String sep b) = a :: split sep b.
Proof.
  induction a as [|c a IH].
  - intros _. change ("" +:+ String sep b) with (String sep b).
    simpl. by rewrite Ascii.eqb_refl.
  - change (String c a +:+ String sep b)
      with (String c (a +:+ String sep b)).
    simpl. destruct (Ascii.eqb c sep); [discriminate|]. simpl.
    intros Free. by rewrite (IH Free).
Qed.

Lemma contains_char_app (c : ascii) (s1 s2 : string) :
  contains_char c (s1 +:+ s2) = contains_char c s1 || contains_char c s2.
Proof.
  induction s1 as [|c1 s1 IH]; simpl; [done|].
  by rewrite IH, orb_assoc.
Qed.

Lemma string_app_cons (c : ascii) (s1 s2 : string) :
  String c s1 +:+ s2 = String c (s1 +:+ s2).
Proof. reflexivity. Qed.

Lemma string_app_assoc (s1 s2 s3 : string) :
  (s1 +:+ s2) +:+ s3 = s1 +:+ (s2 +:+ s3).
Proof.
  induction s1 as [|c s1 IH]; [done|].
  by rewrite !string_app_cons, IH.
Qed.

Section StdioFacts.
Context `{Host}.

(** A read that completes no line only extends the buffer. *)
Lemma fragment_is_retained (chunk : string) (t : StdioTransport) :
  contains_char newline (messageBuffer t +:+ chunk) = false ->
  handleStdinData (Some chunk) t
    = stdio_set_buffer (messageBuffer t +:+ chunk) t.
Proof.
  intros Free. unfold handleStdinData.
  by rewrite (split_without_separator _ _ Free).
Qed.

(** The retained fragment is prefixed onto the next read: reading a
    fragment and then the rest is reading both at once. *)
Lemma fragment_is_prefixed (fragment rest : string) (t : StdioTransport) :
  contains_char newline (messageBuffer t +:+ fragment) = false ->
  handleStdinData (Some rest) (handleStdinData (Some fragment) t)
    = handleStdinData (Some (fragment +:+ rest)) t.
Proof.
  intros Free. rewrite (fragment_is_retained _ _ Free).
  unfold handleStdinData. simpl. by rewrite string_app_assoc.
Qed.

Lemma parse_lines_connected (lines : list string) (t : StdioTransport) :
  stdio_connected (snd (parse_lines lines t)) = stdio_connected t.
Proof.
  revert t. induction lines as [|line lines IH]; intros t; simpl; [done|].
  destruct (negb (String.eqb (trim line) "")); [|apply IH].
  unfold parseMessage.
  destruct (stdio_checked_message (trim line)) as [message|[e|name msg]];
    simpl; [|done..].
  by rewrite IH.
Qed.

(** No read ends the connection, whatever the lines hold. *)
Lemma read_keeps_connection (chunk : option string) (t : StdioTransport) :
  stdio_connected (handleStdinData chunk t) = stdio_connected t.
Proof.
  unfold handleStdinData. destruct chunk as [chunk|]; [|done].
  pose proof (parse_lines_connected
                (removelast (split newline (messageBuffer t +:+ chunk)))
                (stdio_set_buffer
                   (List.last (split newline (messageBuffer t +:+ chunk)) "")
                   t)) as Kept.
  destruct (parse_lines _ _) as [[u|e] t2]; simpl in *; exact Kept.
Qed.

(** The loop over the lines stops at the first line that fails to
    parse: the lines after it are not looked at. *)
Lemma parse_lines_stops_at_failure (line : string) (rest : list string)
    (t : StdioTransport) (e : exn) :
  String.eqb (trim line) "" = false ->
  fst (parseMessage (trim line) t) = Throw e ->
  parse_lines (line :: rest) t = (Throw e, t).
Proof.
  intros NonBlank Failed. simpl. rewrite NonBlank. simpl.
  unfold parseMessage in *.
  destruct (stdio_checked_message (trim line)) as [message|[err|name msg]];
    simpl in *; [discriminate|by injection Failed as <-..].
Qed.

(** What a read does when its first complete line fails to parse: the
    error event is emitted, the buffer becomes the trailing fragment, and
    the complete lines in between are neither parsed nor kept. *)
Lemma malformed_line_drops_rest_of_read (line more : string)
    (t : StdioTransport) (e : exn) :
  contains_char newline (messageBuffer t +:+ line) = false ->
  String.eqb (trim (messageBuffer t +:+ line)) "" = false ->
  stdio_checked_message (trim (messageBuffer t +:+ line)) = Throw e ->
  handleStdinData (Some (line +:+ String newline more)) t =
    stdio_emit (EvError (mkMCPError PARSE_ERROR
                           "Failed to parse stdin data" None))
      (stdio_set_buffer (List.last (split newline more) "") t).
Proof.
  intros Free NonBlank Failed. unfold handleStdinData.
  rewrite <- string_app_assoc.
  rewrite (split_at_first_separator _ _ _ Free).
  destruct (split_nonempty newline more) as (l & ls & Split).
  rewrite Split.
  change (removelast (?a :: l :: ls)) with (a :: removelast (l :: ls)).
  change (List.last (?a :: l :: ls) "") with (List.last (l :: ls) "").
  set (t1 := stdio_set_buffer (List.last (l :: ls) "") t).
  assert (exists e', fst (parseMessage (trim (messageBuffer t +:+ line)) t1)
                     = Throw e') as [e' Thrown].
  { unfold parseMessage. rewrite Failed. destruct e; simpl; eauto. }
  by rewrite (parse_lines_stops_at_failure _ _ _ _ NonBlank Thrown).
Qed.

(** The loop over the lines emits message events only. *)
Lemma parse_lines_emits_messages (lines : list string) (t : StdioTransport) :
  exists messages,
    stdio_emitted (snd (parse_lines lines t))
      = stdio_emitted t ++ (EvMessage <$> messages).
Proof.
  revert t. induction lines as [|line lines IH]; intros t; simpl.
  { exists []. simpl. by rewrite app_nil_r. }
  destruct (negb (String.eqb (trim line) "")); [|apply IH].
  unfold parseMessage.
  destruct (stdio_checked_message (trim line)) as [message|[e|name msg]];
    simpl; try (exists []; simpl; by rewrite app_nil_r).
  destruct (IH (stdio_emit (EvMessage message) t)) as (messages & Emitted).
  exists (message :: messages). rewrite Emitted. simpl.
  by rewrite <- app_assoc.
Qed.

(** Every error event a read emits carries the parse-error code,
    whatever made the line fail. *)
Lemma read_errors_are_parse_errors (chunk : option string)
    (t : StdioTransport) (e : MCPError) :
  EvError e ∈ stdio_emitted (handleStdinData chunk t) ->
  EvError e ∈ stdio_emitted t \/ err_code e = PARSE_ERROR.
Proof.
  unfold handleStdinData. destruct chunk as [chunk|]; [|by left].
  set (lines := split newline (messageBuffer t +:+ chunk)).
  destruct (parse_lines_emits_messages (removelast lines)
              (stdio_set_buffer (List.last lines "") t))
    as (messages & Emitted).
  destruct (parse_lines _ _) as [[u|err] t2]; simpl in *; rewrite Emitted.
  - intros [?|In]%elem_of_app; [by left|].
    apply list_elem_of_fmap in In as (m & [=] & _).
  - rewrite elem_of_app. intros [[?|In]%elem_of_app|In]; [by left| |].
    + apply list_elem_of_fmap in In as (m & [=] & _).
    + apply list_elem_of_singleton in In as [= ->]. by right.
Qed.
End StdioFacts.

(** C5.  A complete, valid line that follows a malformed line in the
    same read is not parsed and not delivered: the read emits the single
    error event, the buffer is emptied of both lines, and a later read
    does not bring the dropped line back.  Alone, the same line is
    delivered. *)
Theorem line_after_malformed_line_is_dropped :
  let valid := Sample.line_ping "2.0" in
  let ping := as_request (Sample.envelope "2.0" (Some (JNum 1)) "ping" None) in
  let parse_error := mkMCPError PARSE_ERROR "Failed to parse stdin data" None in
  let read chunk := @handleStdinData HostModel.host (Some chunk) in
  let after_bad_read :=
    read ("not json" +:+ Sample.nl +:+ valid +:+ Sample.nl) Sample.stdio in
  stdio_emitted (read (valid +:+ Sample.nl) Sample.stdio) = [EvMessage ping] /\
  stdio_emitted after_bad_read = [EvError parse_error] /\
  messageBuffer after_bad_read = "" /\
  stdio_connected after_bad_read = true /\
  stdio_emitted (read (valid +:+ Sample.nl) after_bad_read)
    = [EvError parse_error; EvMessage ping].
Proof. repeat split; vm_compute; reflexivity. Qed.

(** ** The handshake *)

(** The [execute] stage of [initialize] on parameters of the declared
    shape: the outcome is decided by the requested version alone. *)
Lemma initialize_execute (serverInfo : ServerInfo) (request : JSONRPCRequest)
    (fields : list (string * json)) :
  is_InitializeParams (JObj fields) = true ->
  exists version,
    obj_get "protocolVersion" fields = Some (JStr version) /\
    InitializeHandler_execute serverInfo (Some (JObj fields)) request =
      if isProtocolVersionSupported (Some (JStr version))
      then Return (InitializeResult serverInfo)
      else Throw (ExnMCP (mkMCPError INITIALIZATION_FAILED
                            ("Unsupported protocol version: " +:+ version
                               +:+ ". Supported versions: 2024-11-05")
                            (Some (JObj [("supportedVersions",
                                          JArr [JStr "2024-11-05"])])))).
Proof.
  intros Shape. simpl in Shape.
  destruct (obj_get "protocolVersion" fields) as [[| | |version| |]|] eqn:PV;
    try discriminate Shape.
  destruct (obj_get "capabilities" fields) as [[| | | | |caps]|] eqn:Caps;
    try discriminate Shape.
  destruct (obj_get "clientInfo" fields) as [[| | | | |clientInfo]|] eqn:CI;
    try discriminate Shape.
  exists version. split; [done|].
  unfold InitializeHandler_execute. simpl. rewrite CI, PV. simpl.
  by destruct (isProtocolVersionSupported (Some (JStr version))).
Qed.

(** The only supported version is the one the result announces. *)
Lemma supported_version_is_announced (version : jsval) :
  isProtocolVersionSupported version = true <->
  version = Some (JStr "2024-11-05").
Proof.
  unfold isProtocolVersionSupported. simpl. rewrite orb_false_r.
  apply strict_eq_str_true.
Qed.

Section HandshakeFacts.
Context `{Host}.

(** An accepted request reaches [execute] with the accepted value. *)
Lemma initialize_pipeline (serverInfo : ServerInfo)
    (request : JSONRPCRequest) (fields : list (string * json)) :
  accepted_initialize request fields ->
  pipeline (InitializeHandler serverInfo) request
    = InitializeHandler_execute serverInfo (Some (JObj fields)) request.
Proof.
  intros (V & M & P & _).
  unfold pipeline, validateRequest. rewrite V. simpl.
  change (h_method (InitializeHandler serverInfo)) with "initialize".
  rewrite M. simpl. unfold validateParams. simpl. by rewrite P.
Qed.

(** The response to an accepted request that asks for a supported
    version. *)
Lemma initialize_supported (serverInfo : ServerInfo)
    (request : JSONRPCRequest) (fields : list (string * json)) :
  accepted_initialize request fields ->
  isProtocolVersionSupported (obj_get "protocolVersion" fields) = true ->
  handle (InitializeHandler serverInfo) request =
    {| res_jsonrpc := "2.0"; res_id := req_id request;
       res_result := Some (InitializeResult serverInfo);
       res_error := None |}.
Proof.
  intros Accepted Supported. apply handle_Return.
  rewrite (initialize_pipeline _ _ _ Accepted).
  destruct Accepted as (_ & _ & _ & Shape).
  destruct (initialize_execute serverInfo request fields Shape)
    as (version & PV & ->).
  rewrite PV in Supported. by rewrite Supported.
Qed.
End HandshakeFacts.

(** C7 (as amended).  An [initialize] request carrying the supported
    protocol version whose parameters the schema accepts gets a success
    response whose [result.protocolVersion] is the version it asked for
    and whose [result.capabilities] is the fixed capability set of the
    server; two such requests get the same result whatever capabilities
    (or client information) they declare.  The acceptance by the schema
    is a condition: see the counterexample below. *)
Theorem initialize_supported_version_succeeds
    `{Host} (serverInfo : ServerInfo) (request other : JSONRPCRequest)
    (fields fields' : list (string * json)) :
  accepted_initialize request fields ->
  isProtocolVersionSupported (obj_get "protocolVersion" fields) = true ->
  accepted_initialize other fields' ->
  isProtocolVersionSupported (obj_get "protocolVersion" fields') = true ->
  let response := handle (InitializeHandler serverInfo) request in
  response =
    {| res_jsonrpc := "2.0"; res_id := req_id request;
       res_result := Some (InitializeResult serverInfo);
       res_error := None |} /\
  prop (res_result response) "protocolVersion"
    = Return (obj_get "protocolVersion" fields) /\
  prop (res_result response) "capabilities" = Return (Some serverCapabilities) /\
  res_result (handle (InitializeHandler serverInfo) other)
    = res_result response.
Proof.
  intros Accepted Supported Accepted' Supported' response. subst response.
  rewrite (initialize_supported _ _ _ Accepted Supported).
  rewrite (initialize_supported _ _ _ Accepted' Supported'). simpl.
  apply supported_version_is_announced in Supported.
  by rewrite Supported.
Qed.

Lemma initialize_supported_version_succeeds_witness :
  let request :=
    as_request (Sample.initialize "2024-11-05"
                  (JObj [("tools", JObj [("listChanged", JBool true)])])) in
  let other := as_request (Sample.initialize "2024-11-05" (JObj [])) in
  let handler := InitializeHandler Sample.serverInfo in
  @handle HostModel.host handler request =
    {| res_jsonrpc := "2.0"; res_id := Some (JNum 1);
       res_result := Some (InitializeResult Sample.serverInfo);
       res_error := None |} /\
  res_result (@handle HostModel.host handler other)
    = res_result (@handle HostModel.host handler request).
Proof.
  intros request other handler.
  pose proof (@initialize_supported_version_succeeds HostModel.host
                Sample.serverInfo request other
                [("protocolVersion", JStr "2024-11-05");
                 ("capabilities",
                   JObj [("tools", JObj [("listChanged", JBool true)])]);
                 ("clientInfo", JObj [("name", JStr "claude-ai");
                                      ("version", JStr "0.1.0")])]
                [("protocolVersion", JStr "2024-11-05");
                 ("capabilities", JObj []);
                 ("clientInfo", JObj [("name", JStr "claude-ai");
                                      ("version", JStr "0.1.0")])]
                (conj eq_refl (conj eq_refl (conj eq_refl eq_refl))) eq_refl
                (conj eq_refl (conj eq_refl (conj eq_refl eq_refl))) eq_refl)
    as (Handled & _ & _ & Same).
  split; [exact Handled | exact Same].
Defined.

(** C7, as stated, fails: the schema lists the capabilities a client may
    declare, so of two requests that carry the supported version and
    differ in their declared capabilities only, the one that declares
    [elicitation] is refused with InvalidParams (-32602) and gets no
    result, while the other succeeds. *)
Lemma initialize_undeclared_capability_is_invalid_params :
  let handler := InitializeHandler Sample.serverInfo in
  let plain := as_request (Sample.initialize "2024-11-05" (JObj [])) in
  let elicitation :=
    as_request (Sample.initialize "2024-11-05"
                  (JObj [("elicitation", JObj [])])) in
  prop (req_params plain) "protocolVersion"
    = Return (Some (JStr "2024-11-05")) /\
  prop (req_params elicitation) "protocolVersion"
    = Return (Some (JStr "2024-11-05")) /\
  res_result (@handle HostModel.host handler plain)
    = Some (InitializeResult Sample.serverInfo) /\
  res_result (@handle HostModel.host handler elicitation) = None /\
  error_code (@handle HostModel.host handler elicitation) = Some (-32602)%Z.
Proof. vm_compute. repeat split; reflexivity. Qed.

(** C8 (as amended).  An [initialize] request whose parameters the
    schema accepts and whose [protocolVersion] is not in the list of
    supported versions gets an InitializationFailed (-32000) error whose
    data is the list of supported versions, and no result: there is no
    negotiation and no fallback version.  The acceptance by the schema
    is a condition: see the counterexample below. *)
Theorem initialize_unsupported_version_fails
    `{Host} (serverInfo : ServerInfo) (request : JSONRPCRequest)
    (fields : list (string * json)) :
  accepted_initialize request fields ->
  isProtocolVersionSupported (obj_get "protocolVersion" fields) = false ->
  let response := handle (InitializeHandler serverInfo) request in
  res_id response = req_id request /\
  res_result response = None /\
  error_code response = Some (-32000)%Z /\
  (data <$> res_error response)
    = Some (Some (JObj [("supportedVersions",
                         JArr (JStr <$> supportedVersions))])).
Proof.
  intros Accepted Unsupported response. subst response.
  pose proof (initialize_pipeline serverInfo _ _ Accepted) as Piped.
  destruct Accepted as (_ & _ & _ & Shape).
  destruct (initialize_execute serverInfo request fields Shape)
    as (version & PV & Run).
  rewrite PV in Unsupported. rewrite Unsupported in Run.
  rewrite Run in Piped. by rewrite (handle_Throw_MCP _ _ _ Piped).
Qed.

Lemma initialize_unsupported_version_fails_witness :
  let request := as_request (Sample.initialize "2025-03-26" (JObj [])) in
  let response :=
    @handle HostModel.host (InitializeHandler Sample.serverInfo) request in
  res_id response = Some (JNum 1) /\
  res_result response = None /\
  error_code response = Some (-32000)%Z /\
  (data <$> res_error response)
    = Some (Some (JObj [("supportedVersions", JArr [JStr "2024-11-05"])])).
Proof.
  intros request response.
  exact (@initialize_unsupported_version_fails HostModel.host
           Sample.serverInfo request
           [("protocolVersion", JStr "2025-03-26");
            ("capabilities", JObj []);
            ("clientInfo", JObj [("name", JStr "claude-ai");
                                 ("version", JStr "0.1.0")])]
           (conj eq_refl (conj eq_refl (conj eq_refl eq_refl))) eq_refl).
Defined.

(** C8, as stated, fails: a version outside the list that the schema
    refuses (the empty string, a number), or a version outside the list
    beside a capability the schema does not declare, is answered with
    InvalidParams (-32602) and the details of the validator, not with
    -32000 and the list of supported versions; and a request without
    parameters is answered with InternalError (-32603). *)
Lemma initialize_refused_params_hide_the_version_list :
  let handler := InitializeHandler Sample.serverInfo in
  let answer (params : jsval) :=
    @handle HostModel.host handler
      (as_request (Sample.envelope "2.0" (Some (JNum 1)) "initialize"
                     params)) in
  let client := JObj [("name", JStr "claude-ai"); ("version", JStr "0.1.0")] in
  let empty_version :=
    answer (Some (Sample.initialize_params "" (JObj []))) in
  let number_version :=
    answer (Some (JObj [("protocolVersion", JNum 3);
                        ("capabilities", JObj []);
                        ("clientInfo", client)])) in
  let newer_version :=
    answer (Some (Sample.initialize_params "2025-06-18"
                    (JObj [("elicitation", JObj [])]))) in
  let version_list :=
    Some (JObj [("supportedVersions", JArr (JStr <$> supportedVersions))]) in
  isProtocolVersionSupported (Some (JStr "")) = false /\
  isProtocolVersionSupported (Some (JNum 3)) = false /\
  isProtocolVersionSupported (Some (JStr "2025-06-18")) = false /\
  (forall response,
     response ∈ [empty_version; number_version; newer_version] ->
     error_code response = Some (-32602)%Z /\
     (data <$> res_error response) <> Some version_list) /\
  error_code (answer None) = Some (-32603)%Z.
Proof.
  intros handler answer client empty_version number_version newer_version
    version_list.
  split; [reflexivity|]. split; [reflexivity|]. split; [reflexivity|].
  split; [|vm_compute; reflexivity].
  intros response In.
  repeat (apply elem_of_cons in In as [->|In];
          [vm_compute; split; [reflexivity|discriminate]|]).
  by apply elem_of_nil in In.
Qed.

(** ** The [initialized] message on a socket connection *)

(** The response the server sends for an [initialized] message. *)
Lemma initialized_handled `{Host} (handlers : gmap string BaseMCPHandler)
    (request : JSONRPCRequest) :
  handlers !! "initialized" = Some InitializedHandler ->
  req_jsonrpc request = Some (JStr "2.0") ->
  req_method request = Some (JStr "initialized") ->
  handleRequest handlers request =
    {| res_jsonrpc := "2.0"; res_id := req_id request;
       res_result := Some (JObj []); res_error := None |}.
Proof.
  intros Bound V M. unfold handleRequest, getHandler. rewrite M, Bound.
  apply handle_Return.
  unfold pipeline, validateRequest. by rewrite V, M.
Qed.

(** C4 (as amended).  An [initialized] message received on an open
    socket connection is dispatched like any request and answered: the
    server transmits exactly one response to the client, with result [{}]
    and the id of the message (absent for a notification).  No message is
    treated as a notification by the listener. *)
Theorem initialized_is_answered_with_a_response
    `{Host} (handlers : gmap string BaseMCPHandler)
    (fields : list (string * json)) (transport : WebSocketTransport) :
  handlers !! "initialized" = Some InitializedHandler ->
  obj_get "jsonrpc" fields = Some (JStr "2.0") ->
  obj_get "method" fields = Some (JStr "initialized") ->
  ws_connected transport = true ->
  socket_emit_error (ws_socket transport) = None ->
  socket_sent (ws_socket (connection_receive handlers (Some (JObj fields))
                            transport))
  = socket_sent (ws_socket transport)
      ++ [OutResponse {| res_jsonrpc := "2.0";
                         res_id := obj_get "id" fields;
                         res_result := Some (JObj []);
                         res_error := None |}].
Proof.
  intros Bound V M Open Healthy.
  unfold connection_receive.
  pose proof (ws_on_socket_message_emits (Some (JObj fields)) transport)
    as Emitted.
  unfold ws_checked_message in Emitted. simpl in Emitted.
  rewrite V, M in Emitted. simpl in Emitted. rewrite Emitted.
  unfold ws_emit at 1. simpl. rewrite drop_app_length. simpl.
  unfold on_transport_message.
  rewrite (initialized_handled handlers
             (mkRequest (Some (JStr "2.0")) (obj_get "id" fields)
                (Some (JStr "initialized")) (obj_get "params" fields))
             Bound eq_refl eq_refl).
  unfold ws_send. simpl. rewrite Open, Healthy. simpl. reflexivity.
Qed.

Lemma initialized_is_answered_with_a_response_witness :
  socket_sent
    (ws_socket (@connection_receive HostModel.host Sample.handlers
                  (Some Sample.initialized_notification) Sample.ws))
  = [] ++ [OutResponse {| res_jsonrpc := "2.0";
                          res_id := None;
                          res_result := Some (JObj []);
                          res_error := None |}].
Proof.
  exact (@initialized_is_answered_with_a_response HostModel.host
           Sample.handlers
           [("jsonrpc", JStr "2.0"); ("method", JStr "initialized")]
           Sample.ws
           ltac:(vm_compute; reflexivity) eq_refl eq_refl eq_refl eq_refl).
Defined.

(** C4, as stated, fails: for an [initialized] notification (no id) on
    an open connection, one message is transmitted to the client. *)
Lemma initialized_notification_gets_a_response :
  let after :=
    @connection_receive HostModel.host Sample.handlers
      (Some Sample.initialized_notification) Sample.ws in
  req_id (as_request Sample.initialized_notification) = None /\
  length (socket_sent (ws_socket Sample.ws)) = 0 /\
  length (socket_sent (ws_socket after)) = 1 /\
  socket_sent (ws_socket after) <> [].
Proof. vm_compute. repeat split. discriminate. Qed.

(** ** Broadcast *)

(** A send on a connected transport whose channel works delivers the
    message and nothing else changes. *)
Lemma send_delivers (message : OutMessage) (transport : MCPTransport) :
  isConnected transport = true ->
  channel_error transport = None ->
  exists transport',
    send message transport = (Return tt, transport') /\
    delivered transport' = delivered transport ++ [message] /\
    isConnected transport' = true.
Proof.
  destruct transport as [t|t]; simpl;
    unfold ws_isConnected, stdio_isConnected, ws_send, stdio_send.
  - intros [Open Live]%andb_true_iff Healthy. rewrite Open, Healthy. simpl.
    eexists. split; [reflexivity|]. simpl.
    unfold ws_isConnected. simpl. by rewrite ?Open, ?Live.
  - intros Open Healthy. rewrite Open, Healthy. simpl.
    eexists. split; [reflexivity|]. simpl. done.
Qed.

(** A send that fails leaves the transport as it was. *)
Lemma send_failure_keeps_transport (message : OutMessage)
    (transport : MCPTransport) (e : exn) :
  fst (send message transport) = Throw e ->
  snd (send message transport) = transport.
Proof.
  destruct transport as [t|t]; simpl; unfold ws_send, stdio_send.
  - destruct (negb (ws_connected t)); [done|].
    destruct (socket_emit_error (ws_socket t)); [done|discriminate].
  - destruct (negb (stdio_connected t)); [done|].
    destruct (stdout_write_error t); [done|discriminate].
Qed.

(** The callback of [broadcast] never throws: the [catch] absorbs a
    failing send. *)
Lemma broadcast_entry_settles (message : OutMessage)
    (entry : string * MCPTransport) :
  fst (fst (broadcast_entry message entry)) = Return tt /\
  fst (snd (fst (broadcast_entry message entry))) = fst entry.
Proof.
  destruct entry as [id transport]. unfold broadcast_entry.
  destruct (isConnected transport); [|done].
  by destruct (send message transport) as [[u|e] transport'].
Qed.

(** A transport that is disconnected, or whose channel fails, receives
    nothing from the callback. *)
Lemma broadcast_entry_skips (message : OutMessage) (id : string)
    (transport : MCPTransport) :
  isConnected transport = false \/ is_Some (channel_error transport) ->
  snd (fst (broadcast_entry message (id, transport))) = (id, transport).
Proof.
  intros Failing. unfold broadcast_entry.
  destruct (isConnected transport) eqn:Connected; [|done].
  destruct Failing as [?|[e Broken]]; [done|].
  pose proof (send_failure_keeps_transport message transport) as Kept.
  destruct (send message transport) as [[u|e'] transport'] eqn:Sent; simpl.
  - exfalso. clear Kept.
    destruct transport as [t|t]; simpl in *;
      unfold ws_send, stdio_send in Sent; rewrite Broken in Sent;
      [destruct (negb (ws_connected t)) | destruct (negb (stdio_connected t))];
      simpl in Sent; discriminate Sent.
  - f_equal. by apply (Kept e').
Qed.

Local Arguments broadcast_entry : simpl never.

(** C10.  When some transport [k] of the registry is disconnected, or
    its send fails, [broadcast] still resolves without raising, leaves
    transport [k] without the message, and delivers the notification to
    every other transport that is connected and whose channel works. *)
Theorem broadcast_reaches_every_other_connected_transport
    (message : JSONRPCNotification) (m : MCPTransportManager)
    (k : nat) (id_k : string) (transport_k : MCPTransport) :
  transports m !! k = Some (id_k, transport_k) ->
  isConnected transport_k = false \/ is_Some (channel_error transport_k) ->
  fst (broadcast message m) = Return tt /\
  transports (snd (broadcast message m)) !! k = Some (id_k, transport_k) /\
  forall (j : nat) (id_j : string) (transport_j : MCPTransport),
    j <> k ->
    transports m !! j = Some (id_j, transport_j) ->
    isConnected transport_j = true ->
    channel_error transport_j = None ->
    exists transport_j',
      transports (snd (broadcast message m)) !! j = Some (id_j, transport_j') /\
      delivered transport_j'
        = delivered transport_j ++ [OutNotification message] /\
      isConnected transport_j' = true.
Proof.
  intros At_k Failing. split; [reflexivity|]. split.
  - unfold broadcast. simpl.
    rewrite !list_lookup_fmap, At_k. simpl.
    by rewrite (broadcast_entry_skips _ _ _ Failing).
  - intros j id_j transport_j _ At_j Connected Healthy.
    destruct (send_delivers (OutNotification message) transport_j
                Connected Healthy) as (transport_j' & Sent & Got & Still).
    exists transport_j'. split; [|done].
    unfold broadcast. simpl.
    rewrite !list_lookup_fmap, At_j. simpl.
    unfold broadcast_entry. by rewrite Connected, Sent.
Qed.

Lemma broadcast_reaches_every_other_connected_transport_witness :
  let m := {| transports := [("a", WebSocket Sample.ws);
                             ("b", WebSocket Sample.ws_gone);
                             ("c", Stdio Sample.stdio_broken);
                             ("d", Stdio Sample.stdio)];
              manager_log := [] |} in
  fst (broadcast Sample.list_changed m) = Return tt /\
  transports (snd (broadcast Sample.list_changed m)) !! 1
    = Some ("b", WebSocket Sample.ws_gone) /\
  exists transport',
    transports (snd (broadcast Sample.list_changed m)) !! 3
      = Some ("d", transport') /\
    delivered transport' = [] ++ [OutNotification Sample.list_changed] /\
    isConnected transport' = true.
Proof.
  intros m.
  destruct (broadcast_reaches_every_other_connected_transport
              Sample.list_changed m 1 "b" (WebSocket Sample.ws_gone)
              eq_refl (or_introl eq_refl)) as (Resolved & Skipped & Others).
  split; [exact Resolved|]. split; [exact Skipped|].
  exact (Others 3 "d" (Stdio Sample.stdio) ltac:(lia) eq_refl eq_refl eq_refl).
Defined.

(** * Further properties of the engine *)

(** ** The registry *)

(** X1.  After a first registration of a handler, the dispatcher routes
    the requests for its method to it, and answers every other request as
    before. *)
Theorem register_then_dispatch `{Host}
    (handlers : gmap string BaseMCPHandler) (h : BaseMCPHandler)
    (request : JSONRPCRequest) :
  handlers !! h_method h = None ->
  fst (register h handlers) = Return tt /\
  handleRequest (snd (register h handlers)) request =
    if strict_eq_str (req_method request) (h_method h)
    then handle h request
    else handleRequest handlers request.
Proof.
  intros Free. unfold register. rewrite Free. simpl. split; [done|].
  unfold handleRequest, getHandler, strict_eq_str.
  destruct (req_method request) as [[| | |name| |]|]; try done.
  destruct (String.eqb_spec name (h_method h)) as [->|Other].
  - by rewrite lookup_insert_eq.
  - by rewrite lookup_insert_ne.
Qed.

Lemma register_then_dispatch_witness :
  let h := ToolsListHandler in
  let request := as_request (Sample.envelope "2.0" (Some (JNum 3))
                               "tools/list" (Some (JObj []))) in
  fst (register h Sample.handlers) = Return tt /\
  @handleRequest HostModel.host (snd (register h Sample.handlers)) request =
    if strict_eq_str (req_method request) (h_method h)
    then @handle HostModel.host h request
    else @handleRequest HostModel.host Sample.handlers request.
Proof.
  intros h request.
  exact (@register_then_dispatch HostModel.host Sample.handlers h request
           ltac:(vm_compute; reflexivity)).
Defined.

(** X2.  [unregister] reports whether the method was bound; afterwards
    the method is answered with MethodNotFound, every other method is
    routed as before, and a second [unregister] reports [false] and
    changes nothing. *)
Theorem unregister_unbinds `{Host}
    (handlers : gmap string BaseMCPHandler) (method : string)
    (request : JSONRPCRequest) :
  let after := snd (unregister method handlers) in
  (fst (unregister method handlers) = true <->
   is_Some (handlers !! method)) /\
  handleRequest after request =
    (if strict_eq_str (req_method request) method
     then method_not_found_response request
     else handleRequest handlers request) /\
  unregister method after = (false, after).
Proof.
  intros after. subst after. unfold unregister. simpl.
  split; [apply bool_decide_eq_true|]. split.
  - unfold handleRequest, getHandler, strict_eq_str,
      method_not_found_response.
    destruct (req_method request) as [[| | |name| |]|]; try done.
    destruct (String.eqb_spec name method) as [->|Other].
    + by rewrite lookup_delete_eq.
    + by rewrite lookup_delete_ne.
  - f_equal.
    + apply bool_decide_eq_false_2. rewrite lookup_delete_eq.
      by intros [? ?].
    + apply delete_delete_eq.
Qed.

(** X3.  Unregistering a handler right after its first registration
    gives the registry back, and a method that was unregistered can be
    registered again. *)
Theorem register_unregister_round_trip
    (handlers : gmap string BaseMCPHandler) (h h' : BaseMCPHandler) :
  handlers !! h_method h = None ->
  h_method h' = h_method h ->
  let registered := snd (register h handlers) in
  unregister (h_method h) registered = (true, handlers) /\
  fst (register h' (snd (unregister (h_method h) registered))) = Return tt /\
  snd (register h' (snd (unregister (h_method h) registered)))
    !! h_method h = Some h'.
Proof.
  intros Free Same registered. subst registered.
  rewrite (register_fresh _ _ Free). simpl. unfold unregister. simpl.
  rewrite lookup_insert_eq, delete_insert_eq, (delete_id _ _ Free).
  split; [by rewrite bool_decide_eq_true_2|].
  unfold register. rewrite Same, Free. simpl.
  by rewrite lookup_insert_eq.
Qed.

Lemma register_unregister_round_trip_witness :
  let h := ToolsListHandler in
  let registered := snd (register h Sample.handlers) in
  unregister (h_method h) registered = (true, Sample.handlers) /\
  fst (register h (snd (unregister (h_method h) registered))) = Return tt /\
  snd (register h (snd (unregister (h_method h) registered)))
    !! h_method h = Some h.
Proof.
  intros h.
  exact (register_unregister_round_trip Sample.handlers h h
           ltac:(vm_compute; reflexivity) eq_refl).
Defined.

(** X4.  [getRegisteredMethods] lists each bound method once, and a
    method is in the list exactly when [hasHandler] holds for it; after
    [clear] the list is empty. *)
Theorem registered_methods_are_the_bound_ones
    (handlers : gmap string BaseMCPHandler) (method : string) :
  NoDup (getRegisteredMethods handlers) /\
  (method ∈ getRegisteredMethods handlers <->
   hasHandler handlers (Some (JStr method)) = true) /\
  getRegisteredMethods (clear handlers) = [].
Proof.
  unfold getRegisteredMethods, hasHandler, clear. simpl.
  split; [apply NoDup_fst_map_to_list|]. split; [split|].
  - intros In. apply bool_decide_eq_true_2.
    apply list_elem_of_fmap in In as ([m h] & -> & In).
    apply elem_of_map_to_list in In. eauto.
  - intros Bound. apply bool_decide_eq_true_1 in Bound as [h Bound].
    apply list_elem_of_fmap. exists (method, h). split; [done|].
    by apply elem_of_map_to_list.
  - by rewrite map_to_list_empty.
Qed.

(** Registering a list of handlers in a row: what is bound afterwards
    when every call succeeds, and when a call fails. *)
Lemma register_all_outcome (hs : list BaseMCPHandler)
    (handlers : gmap string BaseMCPHandler) :
  (fst (register_all hs handlers) = Return tt <->
   NoDup (h_method <$> hs) /\
   forall h, h ∈ hs -> handlers !! h_method h = None) /\
  (fst (register_all hs handlers) = Return tt ->
   forall m, snd (register_all hs handlers) !! m =
             match List.find (fun h => String.eqb (h_method h) m) hs with
             | Some h => Some h
             | None => handlers !! m
             end).
Proof.
  revert handlers. induction hs as [|h hs IH]; intros handlers; simpl.
  { split; [|done]. split; [intros _|done].
    split; [constructor|]. intros h' In. by apply elem_of_nil in In. }
  destruct (handlers !! h_method h) as [bound|] eqn:Bound.
  - rewrite (register_bound _ _ _ Bound). simpl.
    split; [|discriminate]. split; [discriminate|].
    intros [_ Free]. rewrite (Free h) in Bound; [discriminate|].
    apply list_elem_of_here.
  - rewrite (register_fresh _ _ Bound).
    destruct (IH (<[h_method h := h]> handlers)) as [Iff Lookup].
    split.
    + rewrite Iff. rewrite NoDup_cons. split.
      * intros [Distinct Free]. split; [split; [|done]|].
        -- intros In. apply list_elem_of_fmap in In as (h' & Same & In).
           specialize (Free h' In). rewrite <- Same in Free.
           by rewrite lookup_insert_eq in Free.
        -- intros h' [->|In]%elem_of_cons; [done|].
           specialize (Free h' In).
           destruct (decide (h_method h = h_method h')) as [Same|Other].
           ++ rewrite Same in Free. by rewrite lookup_insert_eq in Free.
           ++ by rewrite lookup_insert_ne in Free.
      * intros [[Fresh Distinct] Free]. split; [done|].
        intros h' In.
        destruct (decide (h_method h = h_method h')) as [Same|Other].
        -- exfalso. apply Fresh. apply list_elem_of_fmap. eauto.
        -- rewrite lookup_insert_ne by done. apply Free.
           by apply list_elem_of_further.
    + intros Ok m. specialize (Lookup Ok m).
      rewrite Iff in Ok. destruct Ok as [_ Free].
      destruct (String.eqb_spec (h_method h) m) as [<-|Other].
      * rewrite Lookup.
        destruct (List.find _ hs) as [h'|] eqn:Found;
          [|by rewrite lookup_insert_eq].
        apply find_some in Found as [In Same].
        apply String.eqb_eq in Same.
        apply list_elem_of_In in In. specialize (Free h' In).
        rewrite Same in Free. by rewrite lookup_insert_eq in Free.
      * rewrite Lookup. destruct (List.find _ hs); [done|].
        by rewrite lookup_insert_ne.
Qed.

(** On an empty registry, distinct names are enough, and the bound
    methods are then the names of the list. *)
Lemma register_all_distinct (hs : list BaseMCPHandler) :
  NoDup (h_method <$> hs) ->
  fst (register_all hs ∅) = Return tt /\
  (forall h, h ∈ hs -> snd (register_all hs ∅) !! h_method h = Some h) /\
  (forall m, is_Some (snd (register_all hs ∅) !! m) <->
             m ∈ h_method <$> hs).
Proof.
  intros Distinct.
  destruct (register_all_outcome hs ∅) as [Iff Lookup].
  assert (fst (register_all hs ∅) = Return tt) as Ok.
  { apply Iff. split; [done|]. intros h _. apply lookup_empty. }
  specialize (Lookup Ok). split; [exact Ok|]. split.
  - intros h In. rewrite Lookup.
    destruct (List.find _ hs) as [h'|] eqn:Found.
    + apply find_some in Found as [In' Same]. apply String.eqb_eq in Same.
      apply list_elem_of_In in In'. f_equal.
      apply list_elem_of_lookup in In as [i At], In' as [j At'].
      assert (i = j) as ->; [|congruence].
      eapply NoDup_lookup; [exact Distinct| |];
        rewrite list_lookup_fmap; [by rewrite At|].
      rewrite At'. simpl. by rewrite Same.
    + exfalso. apply list_elem_of_In in In.
      pose proof (find_none _ _ Found h In) as Ne.
      simpl in Ne. by rewrite String.eqb_refl in Ne.
  - intros m. rewrite Lookup.
    destruct (List.find _ hs) as [h'|] eqn:Found.
    + apply find_some in Found as [In' Same]. apply String.eqb_eq in Same.
      apply list_elem_of_In in In'. split; [intros _|by eauto].
      apply list_elem_of_fmap. eauto.
    + rewrite lookup_empty. split; [by intros [? ?]|].
      intros In. apply list_elem_of_fmap in In as (h & -> & In).
      apply list_elem_of_In in In.
      pose proof (find_none _ _ Found h In) as Ne.
      simpl in Ne. by rewrite String.eqb_refl in Ne.
Qed.

(** X5.  Registering a list of handlers on an empty registry succeeds
    exactly when their method names are pairwise distinct; each handler
    is then bound under its own name and nothing else is bound. *)
Theorem register_all_succeeds_iff_distinct (hs : list BaseMCPHandler) :
  (fst (register_all hs ∅) = Return tt <-> NoDup (h_method <$> hs)) /\
  (NoDup (h_method <$> hs) ->
   (forall h, h ∈ hs -> snd (register_all hs ∅) !! h_method h = Some h) /\
   (forall m, is_Some (snd (register_all hs ∅) !! m) <->
              m ∈ h_method <$> hs)).
Proof.
  split.
  - split; [|by intros [? _]%register_all_distinct].
    intros Ok. by apply (register_all_outcome hs ∅) in Ok as [? _].
  - by intros (_ & ? & ?)%register_all_distinct.
Qed.

(** X6.  The registrations of the server start-up never meet a duplicate:
    whatever the server information, the tool bodies and the resource
    readers, [registerHandlers] succeeds and binds exactly its nine
    methods, each to its own handler. *)
Theorem registerHandlers_binds_nine_methods (serverInfo : ServerInfo)
    (tools : ToolBodies) (readers : ResourceReaders) :
  let registry := snd (registerHandlers serverInfo tools readers) in
  fst (registerHandlers serverInfo tools readers) = Return tt /\
  (forall m, is_Some (registry !! m) <->
     m ∈ ["initialize"; "initialized"; "tools/list"; "tools/call";
          "resources/list"; "resources/templates/list"; "resources/read";
          "resources/subscribe"; "resources/unsubscribe"]) /\
  keyed registry /\
  (forall h, h ∈ registerHandlers_list serverInfo tools readers ->
             registry !! h_method h = Some h).
Proof.
  intros registry. subst registry. unfold registerHandlers.
  assert (NoDup (h_method <$> registerHandlers_list serverInfo tools readers))
    as Distinct.
  { simpl. apply (bool_decide_unpack _). by vm_compute. }
  destruct (register_all_distinct _ Distinct) as (Ok & Bound & Dom).
  split; [exact Ok|]. split; [exact Dom|].
  split; [apply register_all_keyed, empty_keyed | exact Bound].
Qed.

Lemma register_all_succeeds_iff_distinct_witness :
  let hs := registerHandlers_list Sample.serverInfo NoNotion.tools
              Offline.readers in
  fst (register_all hs ∅) = Return tt /\
  snd (register_all hs ∅) !! "tools/list" = Some ToolsListHandler.
Proof.
  intros hs.
  destruct (register_all_succeeds_iff_distinct hs) as [Iff Bound].
  assert (NoDup (h_method <$> hs)) as Distinct
    by (apply (bool_decide_unpack _); vm_compute; exact I).
  split; [exact (proj2 Iff Distinct)|].
  apply (proj1 (Bound Distinct) ToolsListHandler).
  subst hs. unfold registerHandlers_list. repeat constructor.
Defined.

(** ** The pipeline of a handler *)

(** X7.  When the schema validation rejects the parameters of a request
    whose version and method are right, the response is InvalidParams
    (-32602) with the validator's message and details, and [execute] is
    not run: a handler with the same method and schema but with another
    [execute] gives the same response. *)
Theorem rejected_params_are_invalid_params `{Host}
    (h : BaseMCPHandler) (request : JSONRPCRequest) (schema : JoiSchema)
    (msg : string) (details : json)
    (other : jsval -> JSONRPCRequest -> Throwing json) :
  strict_eq_str (req_jsonrpc request) "2.0" = true ->
  strict_eq_str (req_method request) (h_method h) = true ->
  getParamsSchema h = Some schema ->
  Joi_validate schema (req_params request) = JoiError msg details ->
  handle h request =
    {| res_jsonrpc := "2.0"; res_id := req_id request;
       res_result := None;
       res_error :=
         Some {| code := (-32602)%Z;
                 message := "Parameter validation failed: " +:+ msg;
                 data := Some (JObj [("validationDetails", details)]) |} |} /\
  handle {| h_method := h_method h; getParamsSchema := getParamsSchema h;
            execute := other |} request
    = handle h request.
Proof.
  intros V M S Rejected.
  assert (forall ex,
            pipeline {| h_method := h_method h;
                        getParamsSchema := getParamsSchema h;
                        execute := ex |} request =
              Throw (ExnMCP (mkMCPError INVALID_PARAMS
                               ("Parameter validation failed: " +:+ msg)
                               (Some (JObj [("validationDetails", details)])))))
    as Stopped.
  { intros ex. unfold pipeline, validateRequest, validateParams. simpl.
    by rewrite V, M, S, Rejected. }
  assert (handle h request = handle {| h_method := h_method h;
                                        getParamsSchema := getParamsSchema h;
                                        execute := execute h |} request)
    as Eta by (by destruct h).
  rewrite Eta, !(handle_Throw_MCP _ _ _ (Stopped _)). done.
Qed.

Lemma rejected_params_are_invalid_params_witness :
  let request := as_request (Sample.envelope "2.0" (Some (JNum 4))
                               "tools/call" (Some (JObj []))) in
  error_code (@handle HostModel.host (ToolsCallHandler NoNotion.tools) request)
    = Some (-32602)%Z.
Proof.
  intros request.
  destruct (@rejected_params_are_invalid_params HostModel.host
              (ToolsCallHandler NoNotion.tools) request ToolsCallHandler_schema
              _ _ (fun _ _ => Return JNull)
              eq_refl eq_refl eq_refl eq_refl) as [Handled _].
  by rewrite Handled.
Defined.

(** X8.  When [execute] throws an error that is not an [MCPError], the
    response is InternalError (-32603) with the fixed message; the
    message of the error is attached as data in development mode only,
    so that outside of it the response does not depend on the error. *)
Theorem unexpected_error_is_masked `{Host}
    (h : BaseMCPHandler) (request : JSONRPCRequest) (params : jsval)
    (name msg : string) :
  strict_eq_str (req_jsonrpc request) "2.0" = true ->
  strict_eq_str (req_method request) (h_method h) = true ->
  validateParams h (req_params request) = Return params ->
  execute h params request = Throw (ExnError name msg) ->
  res_id (handle h request) = req_id request /\
  res_result (handle h request) = None /\
  res_error (handle h request) =
    Some {| code := (-32603)%Z;
            message := "Internal server error";
            data := if strict_eq_str NODE_ENV "development"
                    then Some (JObj [("originalError", JStr msg)])
                    else None |}.
Proof.
  intros V M P E. unfold handle, pipeline, validateRequest.
  by rewrite V, M, P; simpl; rewrite E.
Qed.

Lemma unexpected_error_is_masked_witness :
  let request := as_request (Sample.envelope "2.0" (Some (JNum 6))
                               "resources/subscribe" None) in
  res_error (@handle HostModel.host ResourcesSubscribeHandler request) =
    Some {| code := (-32603)%Z;
            message := "Internal server error";
            data := None |}.
Proof.
  intros request.
  exact (proj2 (proj2 (@unexpected_error_is_masked HostModel.host
                         ResourcesSubscribeHandler request None _ _
                         eq_refl eq_refl eq_refl eq_refl))).
Defined.

(** X9.  A request for [initialize], [tools/call], [resources/read],
    [resources/subscribe] or [resources/unsubscribe] that carries no
    [params] at all, on a validator that lets absent parameters through
    (as an object schema that is not itself required does), is answered
    with InternalError (-32603) and not with InvalidParams: [execute]
    reads a property of [undefined]. *)
Theorem absent_params_are_an_internal_error `{Host}
    (serverInfo : ServerInfo) (tools : ToolBodies)
    (readers : ResourceReaders) (h : BaseMCPHandler)
    (request : JSONRPCRequest) (schema : JoiSchema) :
  h ∈ [InitializeHandler serverInfo; ToolsCallHandler tools;
       ResourcesReadHandler readers; ResourcesSubscribeHandler;
       ResourcesUnsubscribeHandler] ->
  strict_eq_str (req_jsonrpc request) "2.0" = true ->
  strict_eq_str (req_method request) (h_method h) = true ->
  req_params request = None ->
  getParamsSchema h = Some schema ->
  Joi_validate schema None = JoiValue None ->
  error_code (handle h request) = Some (-32603)%Z /\
  (message <$> res_error (handle h request)) = Some "Internal server error" /\
  res_result (handle h request) = None.
Proof.
  intros In V M Absent S Accepted.
  assert (exists name msg, execute h None request = Throw (ExnError name msg))
    as (name & msg & Thrown).
  { repeat (apply elem_of_cons in In as [->|In]; [simpl; eauto|]).
    by apply elem_of_nil in In. }
  unfold handle, pipeline, validateRequest, validateParams.
  by rewrite V, M, S, Absent, Accepted; simpl; rewrite Thrown.
Qed.

Lemma absent_params_are_an_internal_error_witness :
  let request := as_request (Sample.envelope "2.0" (Some (JNum 5))
                               "initialize" None) in
  error_code (@handle HostModel.host (InitializeHandler Sample.serverInfo)
                request) = Some (-32603)%Z.
Proof.
  intros request.
  exact (proj1 (@absent_params_are_an_internal_error HostModel.host
                  Sample.serverInfo NoNotion.tools
                  Offline.readers
                  (InitializeHandler Sample.serverInfo) request
                  InitializeHandler_schema
                  ltac:(repeat constructor)
                  eq_refl eq_refl eq_refl eq_refl eq_refl)).
Defined.

(** ** Parameter sanitizing *)

Lemma obj_get_obj_set (k k' : string) (v : json)
    (fields : list (string * json)) :
  obj_get k (obj_set k' v fields) =
    if String.eqb k k' then Some v else obj_get k fields.
Proof.
  induction fields as [|[k0 v0] fields IH]; simpl.
  - by destruct (String.eqb k k').
  - destruct (String.eqb_spec k' k0) as [->|Other]; simpl.
    + by destruct (String.eqb k k0).
    + destruct (String.eqb_spec k k0) as [->|Other'].
      * destruct (String.eqb_spec k0 k'); [congruence|done].
      * exact IH.
Qed.

Lemma obj_set_keys (k : string) (v : json) (fields : list (string * json)) :
  is_Some (obj_get k fields) -> (obj_set k v fields).*1 = fields.*1.
Proof.
  induction fields as [|[k0 v0] fields IH]; simpl; [by intros [? ?]|].
  destruct (String.eqb k k0) eqn:E.
  - apply String.eqb_eq in E. by subst.
  - intros Bound. rewrite !fmap_cons. f_equal. by apply IH.
Qed.

Lemma obj_set_same (k : string) (v : json) (fields : list (string * json)) :
  obj_get k fields = Some v -> obj_set k v fields = fields.
Proof.
  induction fields as [|[k0 v0] fields IH]; simpl; [done|].
  destruct (String.eqb k k0) eqn:E.
  - apply String.eqb_eq in E. by intros [= ->]; subst.
  - intros Bound. by rewrite (IH Bound).
Qed.

Lemma redact_keys (field : string) (fields : list (string * json)) :
  (redact fields field).*1 = fields.*1.
Proof.
  unfold redact. destruct (obj_get field fields) eqn:Bound; [|done].
  apply obj_set_keys. eauto.
Qed.

Lemma obj_get_redact (k field : string) (fields : list (string * json)) :
  obj_get k (redact fields field) =
    match obj_get k fields with
    | Some v => Some (if String.eqb k field then JStr "[REDACTED]" else v)
    | None => None
    end.
Proof.
  unfold redact. destruct (obj_get field fields) eqn:Bound.
  - rewrite obj_get_obj_set.
    destruct (String.eqb_spec k field) as [->|Other].
    + by rewrite Bound.
    + by destruct (obj_get k fields).
  - destruct (String.eqb_spec k field) as [->|Other].
    + by rewrite Bound.
    + by destruct (obj_get k fields).
Qed.

Lemma redact_all_keys (names : list string) (fields : list (string * json)) :
  (fold_left redact names fields).*1 = fields.*1.
Proof.
  revert fields. induction names as [|n names IH]; intros fields; simpl;
    [done|].
  by rewrite IH, redact_keys.
Qed.

Lemma obj_get_redact_all (k : string) (names : list string)
    (fields : list (string * json)) :
  obj_get k (fold_left redact names fields) =
    match obj_get k fields with
    | Some v =>
        Some (if existsb (String.eqb k) names then JStr "[REDACTED]" else v)
    | None => None
    end.
Proof.
  revert fields. induction names as [|n names IH]; intros fields; simpl.
  - by destruct (obj_get k fields).
  - rewrite IH, obj_get_redact.
    destruct (obj_get k fields) as [v|]; [|done].
    destruct (String.eqb k n); simpl; [|done].
    by destruct (existsb (String.eqb k) names).
Qed.

Lemma redact_all_again (names : list string)
    (fields : list (string * json)) :
  fold_left redact names (fold_left redact names fields)
    = fold_left redact names fields.
Proof.
  set (done_ := fold_left redact names fields).
  assert (forall n, n ∈ names -> redact done_ n = done_) as Fixed.
  { intros n In. unfold redact.
    destruct (obj_get n done_) as [v|] eqn:Bound; [|done].
    apply obj_set_same. subst done_. rewrite obj_get_redact_all in *.
    destruct (obj_get n fields); [|done].
    injection Bound as <-.
    assert (existsb (String.eqb n) names = true) as ->; [|done].
    apply existsb_exists. exists n.
    split; [by apply list_elem_of_In | apply String.eqb_refl]. }
  clearbody done_. revert Fixed.
  induction names as [|n names IH]; intros Fixed; simpl; [done|].
  rewrite Fixed by apply list_elem_of_here.
  apply IH. intros n' In. apply Fixed. by apply list_elem_of_further.
Qed.

(** X10.  On an object, [sanitizeParams] keeps the keys and their order,
    replaces the value of each of the five sensitive keys that is present
    by "[REDACTED]", and leaves every other value as it is, nested
    objects included: a secret below the top level is not redacted. *)
Theorem sanitizeParams_redacts_top_level_secrets
    (fields : list (string * json)) :
  exists sanitized,
    sanitizeParams (Some (JObj fields)) = Some (JObj sanitized) /\
    sanitized.*1 = fields.*1 /\
    forall k,
      obj_get k sanitized =
        match obj_get k fields with
        | Some v => Some (if bool_decide (k ∈ sensitiveFields)
                          then JStr "[REDACTED]" else v)
        | None => None
        end.
Proof.
  exists (fold_left redact sensitiveFields fields).
  split; [reflexivity|]. split; [apply redact_all_keys|].
  intros k. rewrite obj_get_redact_all.
  destruct (obj_get k fields) as [v|]; [|done]. do 2 f_equal.
  destruct (existsb (String.eqb k) sensitiveFields) eqn:E.
  - rewrite bool_decide_eq_true_2; [done|].
    apply existsb_exists in E as (n & In & Same).
    apply String.eqb_eq in Same as ->. by apply list_elem_of_In.
  - rewrite bool_decide_eq_false_2; [done|]. intros In.
    apply list_elem_of_In in In.
    assert (existsb (String.eqb k) sensitiveFields = true); [|congruence].
    apply existsb_exists. exists k. split; [done|apply String.eqb_refl].
Qed.

Lemma sanitizeParams_primitive (params : jsval) :
  typeof params <> "object" -> sanitizeParams params = params.
Proof.
  intros Other. unfold sanitizeParams.
  destruct (String.eqb_spec (typeof params) "object") as [Same|_]; [done|].
  by rewrite orb_true_r.
Qed.

Lemma sanitizeParams_object (fields : list (string * json)) :
  sanitizeParams (Some (JObj fields))
    = Some (JObj (fold_left redact sensitiveFields fields)).
Proof. reflexivity. Qed.

(** X11.  [sanitizeParams] is idempotent, and it returns what it is given
    when that is not an object or an array ([undefined], [null], a
    boolean, a number, a string). *)
Theorem sanitizeParams_idempotent (params : jsval) :
  sanitizeParams (sanitizeParams params) = sanitizeParams params /\
  (typeof params <> "object" \/ params = Some JNull ->
   sanitizeParams params = params).
Proof.
  split.
  - destruct params as [[|b|n|s|items|fields]|]; try reflexivity;
      try (match goal with
           | |- sanitizeParams (sanitizeParams ?p) = _ =>
               by rewrite !(sanitizeParams_primitive p)
                 by (simpl; discriminate)
           end).
    + change (sanitizeParams (Some (JArr items)))
        with (Some (JObj (fold_left redact sensitiveFields
                            (spread (JArr items))))).
      rewrite sanitizeParams_object. by rewrite redact_all_again.
    + rewrite !sanitizeParams_object. by rewrite redact_all_again.
  - intros [Other| ->]; [|reflexivity].
    by apply sanitizeParams_primitive.
Qed.

(** ** Tools *)

(** X12.  The tools that tools/list announces are the tools that
    tools/call runs: a listed name is dispatched to one of the five tool
    bodies, with [{}] standing for absent arguments, and every other name
    is refused as an unknown tool. *)
Theorem listed_tools_are_the_callable_ones (tools : ToolBodies)
    (name : string) (arguments : jsval) :
  let outcome :=
    ToolsCallHandler_switch tools (Some (JStr name)) arguments in
  if bool_decide (name ∈ strings_at "name" tools_listed) then
    exists body,
      body ∈ [getCareerInitiatives tools; getAchievements tools;
              getTasks tools; searchCareerData tools;
              getSkillAnalysis tools] /\
      outcome = body (js_or arguments (JObj []))
  else
    outcome = Throw (ExnMCP (mkMCPError METHOD_NOT_FOUND
                               ("Unknown tool: " +:+ name) None)).
Proof.
  intros outcome. subst outcome.
  unfold ToolsCallHandler_switch, strict_eq_str.
  change (strings_at "name" tools_listed)
    with ["get_career_initiatives"; "get_achievements"; "get_tasks";
          "search_career_data"; "get_skill_analysis"].
  repeat match goal with
  | |- context [String.eqb name ?lit] =>
      destruct (String.eqb_spec name lit) as [->|?];
      [rewrite bool_decide_eq_true_2 by (repeat constructor);
       eexists; split; [|reflexivity]; repeat constructor|]
  end.
  rewrite bool_decide_eq_false_2; [done|]. intros In.
  repeat (apply elem_of_cons in In as [->|In]; [congruence|]).
  by apply elem_of_nil in In.
Qed.

(** X13.  On an object of parameters, [tools/call] never throws an error
    whose message mentions the Notion API: such a failure of a tool (or
    of the lookup of the tool) is returned as a result flagged
    [isError], and every other failure is thrown on unchanged. *)
Theorem tools_call_reports_notion_failures_as_results (tools : ToolBodies)
    (fields : list (string * json)) (request : JSONRPCRequest) :
  let outcome := ToolsCallHandler_execute tools (Some (JObj fields)) request in
  match ToolsCallHandler_switch tools (obj_get "name" fields)
          (obj_get "arguments" fields) with
  | Return result => outcome = Return result
  | Throw error =>
      if includes (exn_message error) "Notion API" then
        exists text,
          outcome = Return (JObj [("content", JArr [text]);
                                  ("isError", JBool true)])
      else outcome = Throw error
  end /\
  match outcome with
  | Return _ => True
  | Throw error => includes (exn_message error) "Notion API" = false
  end.
Proof.
  intros outcome. subst outcome. unfold ToolsCallHandler_execute. simpl.
  destruct (ToolsCallHandler_switch tools _ _) as [result|error]; [done|].
  destruct (includes (exn_message error) "Notion API") eqn:Mentions;
    [eauto|done].
Qed.

(** ** Resources *)

Lemma prefix_app (p s : string) : String.prefix p (p +:+ s) = true.
Proof.
  induction p as [|c p IH]; [by destruct s|].
  rewrite string_app_cons. simpl.
  by destruct (ascii_dec c c).
Qed.

Lemma substring_all (s : string) : String.substring 0 (String.length s) s = s.
Proof. induction s as [|c s IH]; simpl; [done|]. by rewrite IH. Qed.

Lemma substring_after (p s : string) :
  String.substring (String.length p)
    (String.length (p +:+ s) - String.length p) (p +:+ s) = s.
Proof.
  induction p as [|c p IH].
  - change ("" +:+ s) with s. simpl. rewrite Nat.sub_0_r. apply substring_all.
  - rewrite string_app_cons. simpl. exact IH.
Qed.

(** Removing the scheme of a URI that starts with it. *)
Lemma replace_first_prefix (p s : string) :
  replace_first p "" (p +:+ s) = s.
Proof.
  assert (forall x, replace_first p "" x =
            if String.prefix p x
            then "" +:+ String.substring (String.length p)
                          (String.length x - String.length p) x
            else match x with
                 | EmptyString => EmptyString
                 | String c x' => String c (replace_first p "" x')
                 end) as Unfolded by (by intros []).
  by rewrite Unfolded, prefix_app, substring_after.
Qed.

(** What [resources/read] does with a URI of the notion scheme. *)
Lemma resources_read_notion_uri (readers : ResourceReaders)
    (fields : list (string * json)) (path : string)
    (request : JSONRPCRequest) :
  obj_get "uri" fields = Some (JStr ("notion://" +:+ path)) ->
  ResourcesReadHandler_execute readers (Some (JObj fields)) request =
    mask_notion_failure
      (ResourcesReadHandler_switch readers (split slash path)).
Proof.
  intros Uri. unfold ResourcesReadHandler_execute. simpl. rewrite Uri.
  rewrite prefix_app, replace_first_prefix. reflexivity.
Qed.

(** A request that passes the first two stages reaches [execute] with
    the value the validator returned. *)
Lemma pipeline_accepted `{Host} (h : BaseMCPHandler)
    (request : JSONRPCRequest) (schema : JoiSchema) (value : jsval) :
  strict_eq_str (req_jsonrpc request) "2.0" = true ->
  strict_eq_str (req_method request) (h_method h) = true ->
  getParamsSchema h = Some schema ->
  Joi_validate schema (req_params request) = JoiValue value ->
  pipeline h request = execute h value request.
Proof.
  intros V M S Accepted. unfold pipeline, validateRequest, validateParams.
  by rewrite V, M, S, Accepted.
Qed.

(** X14.  A [resources/read] request whose URI does not start with
    "notion://" is answered with ResourceNotFound (-32001) and the
    message "Unsupported URI scheme: <uri>"; no reader is consulted. *)
Theorem unsupported_uri_scheme_is_resource_not_found `{Host}
    (readers : ResourceReaders) (request : JSONRPCRequest)
    (fields : list (string * json)) (uri : string) :
  strict_eq_str (req_jsonrpc request) "2.0" = true ->
  strict_eq_str (req_method request) "resources/read" = true ->
  Joi_validate uri_schema (req_params request)
    = JoiValue (Some (JObj fields)) ->
  obj_get "uri" fields = Some (JStr uri) ->
  String.prefix "notion://" uri = false ->
  handle (ResourcesReadHandler readers) request =
    {| res_jsonrpc := "2.0"; res_id := req_id request;
       res_result := None;
       res_error := Some {| code := (-32001)%Z;
                            message := "Unsupported URI scheme: " +:+ uri;
                            data := None |} |}.
Proof.
  intros V M Accepted Uri Foreign.
  apply (handle_Throw_MCP _ _
           (mkMCPError RESOURCE_NOT_FOUND
              ("Unsupported URI scheme: " +:+ uri) None)).
  rewrite (pipeline_accepted (ResourcesReadHandler readers) _ uri_schema _
             V M eq_refl Accepted).
  simpl. unfold ResourcesReadHandler_execute. simpl.
  by rewrite Uri, Foreign.
Qed.

Lemma unsupported_uri_scheme_is_resource_not_found_witness :
  let request :=
    as_request (Sample.envelope "2.0" (Some (JNum 2)) "resources/read"
                  (Some (JObj [("uri", JStr "scheme://unknown/path")]))) in
  @handle HostModel.host (ResourcesReadHandler Offline.readers) request =
    {| res_jsonrpc := "2.0"; res_id := Some (JNum 2);
       res_result := None;
       res_error :=
         Some {| code := (-32001)%Z;
                 message := "Unsupported URI scheme: scheme://unknown/path";
                 data := None |} |}.
Proof.
  intros request.
  exact (@unsupported_uri_scheme_is_resource_not_found HostModel.host
           Offline.readers request
           [("uri", JStr "scheme://unknown/path")] "scheme://unknown/path"
           eq_refl eq_refl eq_refl eq_refl eq_refl).
Defined.

Lemma includes_skip (c : ascii) (s : string) :
  c <> "N"%char -> includes (String c s) "Notion API" = includes s "Notion API".
Proof.
  intros Other.
  change (includes (String c s) "Notion API")
    with (String.prefix "Notion API" (String c s) || includes s "Notion API").
  change (String.prefix "Notion API" (String c s))
    with (if ascii_dec "N" c then String.prefix "otion API" s else false).
  by destruct (ascii_dec "N" c); [congruence|].
Qed.

(** X15.  For a URI of the notion scheme whose first path segment is not
    one of the five resource types, [resources/read] throws
    ResourceNotFound "Unknown resource type: <segment>" (an empty segment
    included); and "notion://search" without a query segment throws
    InvalidParams "Search query required". *)
Theorem unknown_resource_type_is_resource_not_found
    (readers : ResourceReaders) (fields : list (string * json))
    (path : string) (request : JSONRPCRequest) :
  obj_get "uri" fields = Some (JStr ("notion://" +:+ path)) ->
  let segment := hd "" (split slash path) in
  let outcome :=
    ResourcesReadHandler_execute readers (Some (JObj fields)) request in
  (segment ∉ ["initiatives"; "achievements"; "tasks"; "career-summary";
              "search"] ->
   includes segment "Notion API" = false ->
   outcome = Throw (ExnMCP (mkMCPError RESOURCE_NOT_FOUND
                              ("Unknown resource type: " +:+ segment) None))) /\
  (path = "search" ->
   outcome = Throw (ExnMCP (mkMCPError INVALID_PARAMS
                              "Search query required" None))).
Proof.
  intros Uri segment outcome. subst outcome.
  rewrite (resources_read_notion_uri _ _ _ _ Uri). split.
  - intros Unknown Plain. unfold ResourcesReadHandler_switch.
    fold segment.
    repeat match goal with
    | |- context [String.eqb segment ?lit] =>
        destruct (String.eqb_spec segment lit) as [Same|_];
        [exfalso; apply Unknown; rewrite Same; repeat constructor|]
    end.
    unfold mask_notion_failure, createError. simpl exn_message.
    assert (includes ("Unknown resource type: " +:+ segment) "Notion API"
            = false) as ->; [|done].
    rewrite !string_app_cons. change ("" +:+ segment) with segment.
    by rewrite !includes_skip by discriminate.
  - intros ->. reflexivity.
Qed.

Lemma unknown_resource_type_is_resource_not_found_witness :
  ResourcesReadHandler_execute Offline.readers
    (Some (JObj [("uri", JStr "notion://projects/42")]))
    (as_request Sample.old_version_ping)
  = Throw (ExnMCP (mkMCPError RESOURCE_NOT_FOUND
                     "Unknown resource type: projects" None)).
Proof.
  refine (proj1 (unknown_resource_type_is_resource_not_found Offline.readers
                   [("uri", JStr "notion://projects/42")] "projects/42"
                   (as_request Sample.old_version_ping) eq_refl) _ eq_refl).
  intros In.
  repeat (apply elem_of_cons in In as [Same|In]; [discriminate Same|]).
  by apply elem_of_nil in In.
Defined.

(** X16.  Every resource that resources/list announces can be read: its
    URI is dispatched by [resources/read] to the reader of its own type,
    with the type as the only path part, and is never refused as an
    unsupported scheme or an unknown type. *)
Theorem listed_resources_are_readable (readers : ResourceReaders)
    (fields : list (string * json)) (uri : string)
    (request : JSONRPCRequest) :
  uri ∈ strings_at "uri" resources_listed ->
  obj_get "uri" fields = Some (JStr uri) ->
  let outcome :=
    ResourcesReadHandler_execute readers (Some (JObj fields)) request in
  (uri = "notion://initiatives" /\
   outcome = mask_notion_failure (readInitiatives readers ["initiatives"])) \/
  (uri = "notion://achievements" /\
   outcome = mask_notion_failure
               (readAchievements readers ["achievements"])) \/
  (uri = "notion://tasks" /\
   outcome = mask_notion_failure (readTasks readers ["tasks"])) \/
  (uri = "notion://career-summary" /\
   outcome = mask_notion_failure (readCareerSummary readers)).
Proof.
  change (strings_at "uri" resources_listed)
    with ["notion://" +:+ "initiatives"; "notion://" +:+ "achievements";
          "notion://" +:+ "tasks"; "notion://" +:+ "career-summary"].
  intros In Uri outcome. subst outcome.
  apply elem_of_cons in In as [->|In];
    [left; split; [reflexivity|];
     by rewrite (resources_read_notion_uri _ _ _ _ Uri)|].
  apply elem_of_cons in In as [->|In];
    [right; left; split; [reflexivity|];
     by rewrite (resources_read_notion_uri _ _ _ _ Uri)|].
  apply elem_of_cons in In as [->|In];
    [right; right; left; split; [reflexivity|];
     by rewrite (resources_read_notion_uri _ _ _ _ Uri)|].
  apply elem_of_cons in In as [->|In];
    [right; right; right; split; [reflexivity|];
     by rewrite (resources_read_notion_uri _ _ _ _ Uri)|].
  by apply elem_of_nil in In.
Qed.

Lemma listed_resources_are_readable_witness :
  ResourcesReadHandler_execute Offline.readers
    (Some (JObj [("uri", JStr "notion://tasks")]))
    (as_request Sample.old_version_ping)
  = mask_notion_failure (readTasks Offline.readers ["tasks"]).
Proof.
  destruct (listed_resources_are_readable Offline.readers
              [("uri", JStr "notion://tasks")] "notion://tasks"
              (as_request Sample.old_version_ping)
              ltac:(vm_compute; repeat constructor) eq_refl)
    as [[Uri _]|[[Uri _]|[[_ Read]|[Uri _]]]];
    [discriminate Uri | discriminate Uri | exact Read | discriminate Uri].
Defined.

(** X17.  The URIs of the three item templates reach the reader of their
    type with the item id as second path segment, and the URI of the
    search template reaches the search with the decoded query. *)
Theorem template_uris_reach_their_reader (readers : ResourceReaders)
    (fields : list (string * json)) (kind value : string)
    (request : JSONRPCRequest) :
  contains_char slash value = false ->
  obj_get "uri" fields
    = Some (JStr ("notion://" +:+ kind +:+ String slash value)) ->
  let outcome :=
    ResourcesReadHandler_execute readers (Some (JObj fields)) request in
  (kind = "initiatives" ->
   outcome = mask_notion_failure
               (readInitiatives readers ["initiatives"; value])) /\
  (kind = "achievements" ->
   outcome = mask_notion_failure
               (readAchievements readers ["achievements"; value])) /\
  (kind = "tasks" ->
   outcome = mask_notion_failure (readTasks readers ["tasks"; value])) /\
  (kind = "search" ->
   outcome = mask_notion_failure
               (do query <- decodeURIComponent readers value;
                readSearchResults readers query)%T).
Proof.
  intros Plain Uri outcome. subst outcome.
  rewrite (resources_read_notion_uri _ _ _ _ Uri).
  repeat split; intros ->.
  - by rewrite (split_at_first_separator slash "initiatives" value eq_refl),
      (split_without_separator _ _ Plain).
  - by rewrite (split_at_first_separator slash "achievements" value eq_refl),
      (split_without_separator _ _ Plain).
  - by rewrite (split_at_first_separator slash "tasks" value eq_refl),
      (split_without_separator _ _ Plain).
  - by rewrite (split_at_first_separator slash "search" value eq_refl),
      (split_without_separator _ _ Plain).
Qed.

Lemma template_uris_reach_their_reader_witness :
  ResourcesReadHandler_execute Offline.readers
    (Some (JObj [("uri", JStr "notion://search/docker")]))
    (as_request Sample.old_version_ping)
  = mask_notion_failure
      (do query <- decodeURIComponent Offline.readers "docker";
       readSearchResults Offline.readers query)%T.
Proof.
  exact (proj2 (proj2 (proj2
           (template_uris_reach_their_reader Offline.readers
              [("uri", JStr "notion://search/docker")] "search" "docker"
              (as_request Sample.old_version_ping) eq_refl eq_refl)))
           eq_refl).
Defined.

(** X18.  For a URI of the notion scheme, [resources/read] never throws
    an error that mentions the Notion API under its own code: whatever
    was thrown with such a message, an [MCPError] included, comes out as
    an InternalError "Failed to read resource: ...". *)
Theorem resources_read_masks_notion_failures (readers : ResourceReaders)
    (fields : list (string * json)) (path : string)
    (request : JSONRPCRequest) :
  obj_get "uri" fields = Some (JStr ("notion://" +:+ path)) ->
  match ResourcesReadHandler_execute readers (Some (JObj fields)) request with
  | Return _ => True
  | Throw error =>
      includes (exn_message error) "Notion API" = true ->
      exists original,
        ResourcesReadHandler_switch readers (split slash path)
          = Throw original /\
        includes (exn_message original) "Notion API" = true /\
        error = ExnMCP (mkMCPError INTERNAL_ERROR
                          ("Failed to read resource: "
                             +:+ exn_message original) None)
  end.
Proof.
  intros Uri. rewrite (resources_read_notion_uri _ _ _ _ Uri).
  destruct (ResourcesReadHandler_switch readers (split slash path))
    as [contents|original]; [done|].
  unfold mask_notion_failure.
  destruct (includes (exn_message original) "Notion API") eqn:Mentions.
  - intros _. eauto.
  - intros Contradiction. congruence.
Qed.

Lemma resources_read_masks_notion_failures_witness :
  match ResourcesReadHandler_execute Offline.readers
          (Some (JObj [("uri", JStr "notion://Notion API")]))
          (as_request Sample.old_version_ping) with
  | Return _ => True
  | Throw error =>
      includes (exn_message error) "Notion API" = true ->
      exists original,
        ResourcesReadHandler_switch Offline.readers
          (split slash "Notion API") = Throw original /\
        includes (exn_message original) "Notion API" = true /\
        error = ExnMCP (mkMCPError INTERNAL_ERROR
                          ("Failed to read resource: "
                             +:+ exn_message original) None)
  end.
Proof.
  exact (resources_read_masks_notion_failures Offline.readers
           [("uri", JStr "notion://Notion API")] "Notion API"
           (as_request Sample.old_version_ping) eq_refl).
Defined.

(** X19.  [resources/list] does not paginate: every accepted request, a
    request that passes the cursor of the previous page included, gets
    the same four resources and the same [nextCursor] "cursor-123", so a
    client that follows the cursor never reaches a last page. *)
Theorem resources_list_never_ends `{Host}
    (request : JSONRPCRequest) (value : jsval) :
  strict_eq_str (req_jsonrpc request) "2.0" = true ->
  strict_eq_str (req_method request) "resources/list" = true ->
  Joi_validate cursor_schema (req_params request) = JoiValue value ->
  exists page,
    res_result (handle ResourcesListHandler request) = Some page /\
    res_error (handle ResourcesListHandler request) = None /\
    prop (Some page) "resources" = Return (Some (JArr resources_listed)) /\
    prop (Some page) "nextCursor" = Return (Some (JStr "cursor-123")).
Proof.
  intros V M Accepted.
  rewrite (handle_Return ResourcesListHandler request
             (JObj [("resources", JArr resources_listed);
                    ("nextCursor", JStr "cursor-123")])).
  - eexists. repeat split; reflexivity.
  - by rewrite (pipeline_accepted ResourcesListHandler _ cursor_schema _
                  V M eq_refl Accepted).
Qed.

Lemma resources_list_never_ends_witness :
  let request :=
    as_request (Sample.envelope "2.0" (Some (JNum 9)) "resources/list"
                  (Some (JObj [("cursor", JStr "cursor-123")]))) in
  exists page,
    res_result (@handle HostModel.host ResourcesListHandler request)
      = Some page /\
    res_error (@handle HostModel.host ResourcesListHandler request) = None /\
    prop (Some page) "resources" = Return (Some (JArr resources_listed)) /\
    prop (Some page) "nextCursor" = Return (Some (JStr "cursor-123")).
Proof.
  intros request.
  exact (@resources_list_never_ends HostModel.host request _
           eq_refl eq_refl eq_refl).
Defined.

(** ** Transports *)

(** X20.  [close] never throws; afterwards the transport is not
    connected, every [send] throws a TransportError and puts nothing on
    the channel, and closing again changes nothing. *)
Theorem closed_transport_refuses_to_send (transport : MCPTransport)
    (message : OutMessage) :
  let closed := snd (close transport) in
  fst (close transport) = Return tt /\
  isConnected closed = false /\
  delivered closed = delivered transport /\
  (exists msg,
     send message closed
       = (Throw (ExnMCP (mkMCPError TRANSPORT_ERROR msg None)), closed)) /\
  close closed = (Return tt, closed).
Proof.
  destruct transport as [t|t]; simpl.
  - destruct (ws_connected t) eqn:Open;
      unfold ws_close, ws_isConnected, ws_send; rewrite Open; simpl;
      unfold ws_close, ws_isConnected, ws_send; simpl; rewrite ?Open; simpl;
      repeat split; eauto.
  - destruct (stdio_connected t) eqn:Open;
      unfold stdio_close, stdio_send; rewrite Open; simpl;
      unfold stdio_close, stdio_send; simpl; rewrite ?Open; simpl;
      repeat split; eauto.
Qed.

(** X21.  Messages sent one after the other on a connected transport
    whose channel works reach the channel in the order of the sends,
    after what was delivered before, and the transport stays connected. *)
Theorem sends_are_delivered_in_order (messages : list OutMessage)
    (transport : MCPTransport) :
  isConnected transport = true ->
  channel_error transport = None ->
  let after := fold_left (fun t m => snd (send m t)) messages transport in
  delivered after = delivered transport ++ messages /\
  isConnected after = true /\
  channel_error after = None.
Proof.
  revert transport. induction messages as [|m messages IH];
    intros transport Connected Healthy; simpl.
  { by rewrite app_nil_r. }
  destruct (send_delivers m transport Connected Healthy)
    as (transport' & Sent & Got & Still).
  rewrite Sent. simpl.
  assert (channel_error transport' = None) as Healthy'.
  { destruct transport as [t|t]; simpl in *;
      unfold ws_send, stdio_send in Sent.
    - destruct (negb (ws_connected t)); [discriminate|].
      rewrite Healthy in Sent. by injection Sent as <-.
    - destruct (negb (stdio_connected t)); [discriminate|].
      rewrite Healthy in Sent. by injection Sent as <-. }
  destruct (IH transport' Still Healthy') as (Delivered & ? & ?).
  rewrite Delivered, Got. by rewrite <- app_assoc.
Qed.

Lemma sends_are_delivered_in_order_witness :
  let first := OutNotification Sample.list_changed in
  let second :=
    OutResponse (method_not_found_response
                   (as_request Sample.old_version_ping)) in
  delivered (fold_left (fun t m => snd (send m t)) [first; second]
               (Stdio Sample.stdio))
  = [] ++ [first; second].
Proof.
  intros first second.
  exact (proj1 (sends_are_delivered_in_order [first; second]
                  (Stdio Sample.stdio) eq_refl eq_refl)).
Defined.

(** X22.  The codec of the socket transport accepts exactly the objects
    whose [jsonrpc] is "2.0" and whose [method] is a non-empty string; it
    looks at nothing else, so [id] and [params] may be missing or of any
    shape, and the accepted request is the object itself. *)
Theorem ws_codec_accepts_exactly_versioned_method_calls (data : jsval)
    (request : JSONRPCRequest) :
  ws_checked_message data = Return request <->
  exists fields method,
    data = Some (JObj fields) /\
    obj_get "jsonrpc" fields = Some (JStr "2.0") /\
    obj_get "method" fields = Some (JStr method) /\
    method <> "" /\
    request = {| req_jsonrpc := Some (JStr "2.0");
                 req_id := obj_get "id" fields;
                 req_method := Some (JStr method);
                 req_params := obj_get "params" fields |}.
Proof.
  split.
  - unfold ws_checked_message.
    destruct (negb (truthy data) || negb (String.eqb (typeof data) "object"))
      eqn:Shape; [discriminate|].
    destruct data as [[| | | |items|fields]|]; simpl in Shape;
      rewrite ?orb_true_r in Shape; try discriminate Shape; simpl;
      [discriminate|].
    destruct (strict_eq_str (obj_get "jsonrpc" fields) "2.0") eqn:V;
      [|discriminate].
    apply strict_eq_str_true in V. simpl.
    destruct (obj_get "method" fields) as [[| | |method| |]|] eqn:M;
      simpl; rewrite ?orb_true_r; try discriminate.
    destruct (String.eqb_spec method "") as [->|NonEmpty];
      [discriminate|].
    simpl. intros [= <-]. exists fields, method.
    by rewrite V, M.
  - intros (fields & method & -> & V & M & NonEmpty & ->).
    unfold ws_checked_message. simpl. rewrite V, M. simpl.
    by destruct (String.eqb_spec method "").
Qed.

Section CodecAgreement.
Context `{Host}.

(** X23.  The two transports accept the same messages: a line that
    parses as JSON is accepted by the stdio codec exactly when the parsed
    value is accepted by the socket codec, and as the same request. *)
Theorem stdio_and_socket_codecs_agree (line : string) (value : json)
    (request : JSONRPCRequest) :
  JSON_parse line = Return value ->
  stdio_checked_message line = Return request <->
  ws_checked_message (Some value) = Return request.
Proof.
  intros Parsed. unfold stdio_checked_message, ws_checked_message.
  rewrite Parsed. simpl.
  destruct value as [|b|n|s|items|fields]; simpl;
    try (split; discriminate).
  - destruct b; simpl; split; discriminate.
  - destruct (n =? 0)%Z; simpl; split; discriminate.
  - destruct (String.eqb s ""); simpl; split; discriminate.
  - reflexivity.
Qed.
End CodecAgreement.

Lemma stdio_and_socket_codecs_agree_witness :
  @stdio_checked_message HostModel.host (Sample.line_ping "2.0")
    = Return (as_request (Sample.envelope "2.0" (Some (JNum 1)) "ping" None))
  <->
  ws_checked_message (Some (Sample.envelope "2.0" (Some (JNum 1)) "ping" None))
    = Return (as_request (Sample.envelope "2.0" (Some (JNum 1)) "ping" None)).
Proof.
  exact (@stdio_and_socket_codecs_agree HostModel.host
           (Sample.line_ping "2.0")
           (Sample.envelope "2.0" (Some (JNum 1)) "ping" None)
           (as_request (Sample.envelope "2.0" (Some (JNum 1)) "ping" None))
           ltac:(vm_compute; reflexivity)).
Defined.

(** ** The byte stream, read after read *)

Lemma removelast_cons2 {A} (x y : A) (l : list A) :
  removelast (x :: y :: l) = x :: removelast (y :: l).
Proof. reflexivity. Qed.

Lemma last_cons2 {A} (x y : A) (l : list A) (d : A) :
  List.last (x :: y :: l) d = List.last (y :: l) d.
Proof. reflexivity. Qed.

(** Splitting a concatenation: the complete pieces of the first part,
    then the pieces of its last piece followed by the second part. *)
Lemma split_app (sep : ascii) (a c : string) :
  split sep (a +:+ c) =
    removelast (split sep a) ++ split sep (List.last (split sep a) "" +:+ c).
Proof.
  induction a as [|x a IH]; [reflexivity|].
  rewrite string_app_cons. simpl split. rewrite IH.
  destruct (split_nonempty sep a) as (l & ls & Split). rewrite Split.
  destruct (Ascii.eqb x sep) eqn:E.
  - by rewrite removelast_cons2, last_cons2.
  - destruct ls as [|l' ls].
    + simpl. by rewrite E.
    + by rewrite !removelast_cons2, !last_cons2.
Qed.

Lemma split_last_without_separator (sep : ascii) (s : string) :
  contains_char sep (List.last (split sep s) "") = false.
Proof.
  induction s as [|x s IH]; [reflexivity|]. simpl.
  destruct (split_nonempty sep s) as (l & ls & Split).
  rewrite Split in *.
  destruct (Ascii.eqb x sep) eqn:E.
  - by rewrite last_cons2.
  - destruct ls as [|l' ls]; [|by rewrite !last_cons2 in *].
    simpl in *. by rewrite E.
Qed.

Section Reads.
Context `{Host}.

Lemma parse_lines_app (lines1 lines2 : list string) (t : StdioTransport) :
  parse_lines (lines1 ++ lines2) t =
    match parse_lines lines1 t with
    | (Return _, t') => parse_lines lines2 t'
    | (Throw e, t') => (Throw e, t')
    end.
Proof.
  revert t. induction lines1 as [|line lines1 IH]; intros t; simpl; [done|].
  destruct (negb (String.eqb (trim line) "")); [|apply IH].
  destruct (parseMessage (trim line) t) as [[u|e] t']; [apply IH|done].
Qed.

Lemma parse_lines_set_buffer (lines : list string) (b : string)
    (t : StdioTransport) :
  parse_lines lines (stdio_set_buffer b t) =
    (fst (parse_lines lines t), stdio_set_buffer b (snd (parse_lines lines t))).
Proof.
  revert t. induction lines as [|line lines IH]; intros t; simpl; [done|].
  destruct (negb (String.eqb (trim line) "")); [|apply IH].
  unfold parseMessage.
  destruct (stdio_checked_message (trim line)) as [message|[e|name msg]];
    simpl; [|done..].
  apply (IH (stdio_emit (EvMessage message) t)).
Qed.

(** The loop over lines that are all valid: one message per line that
    is not blank, in the order of the lines. *)
Lemma parse_lines_all_valid (lines : list string)
    (requests : list JSONRPCRequest) (t : StdioTransport) :
  Forall2 (fun line request =>
             stdio_checked_message (trim line) = Return request)
    (List.filter (fun line => negb (String.eqb (trim line) "")) lines)
    requests ->
  parse_lines lines t =
    (Return tt,
     {| stdio_connected := stdio_connected t;
        messageBuffer := messageBuffer t;
        stdout_written := stdout_written t;
        stdout_write_error := stdout_write_error t;
        stdio_emitted := stdio_emitted t ++ (EvMessage <$> requests) |}).
Proof.
  revert requests t.
  induction lines as [|line lines IH]; intros requests t; simpl.
  - intros Valid. apply Forall2_nil_inv_l in Valid as ->. simpl.
    rewrite app_nil_r. by destruct t.
  - destruct (negb (String.eqb (trim line) "")); [|apply IH].
    intros Valid.
    apply Forall2_cons_inv_l in Valid as (r & rs & Parsed & Valid & ->).
    unfold parseMessage. rewrite Parsed.
    rewrite (IH rs _ Valid). simpl. by rewrite <- app_assoc.
Qed.

(** X24.  A read whose complete lines are all valid messages emits one
    message event per line that is not blank, in the order of the
    lines, keeps the trailing fragment as the new buffer and touches
    nothing else. *)
Theorem valid_lines_are_delivered_in_order (chunk : string)
    (requests : list JSONRPCRequest) (t : StdioTransport) :
  Forall2 (fun line request =>
             stdio_checked_message (trim line) = Return request)
    (List.filter (fun line => negb (String.eqb (trim line) ""))
       (removelast (split newline (messageBuffer t +:+ chunk))))
    requests ->
  handleStdinData (Some chunk) t =
    {| stdio_connected := stdio_connected t;
       messageBuffer :=
         List.last (split newline (messageBuffer t +:+ chunk)) "";
       stdout_written := stdout_written t;
       stdout_write_error := stdout_write_error t;
       stdio_emitted := stdio_emitted t ++ (EvMessage <$> requests) |}.
Proof.
  intros Valid. unfold handleStdinData.
  by rewrite (parse_lines_all_valid _ _ _ Valid).
Qed.

(** X25.  How the stream is cut into reads does not show: when a read
    raises no error, that read followed by a second one leaves the
    transport exactly as a single read of both chunks does. *)
Theorem chunking_is_invisible (first second : string) (t : StdioTransport) :
  fst (parse_lines (removelast (split newline (messageBuffer t +:+ first))) t)
    = Return tt ->
  handleStdinData (Some second) (handleStdinData (Some first) t)
    = handleStdinData (Some (first +:+ second)) t.
Proof.
  intros Clean.
  set (lines1 := split newline (messageBuffer t +:+ first)) in *.
  set (fragment := List.last lines1 "").
  set (lines2 := split newline (fragment +:+ second)).
  set (t1 := snd (parse_lines (removelast lines1) t)).
  assert (handleStdinData (Some first) t = stdio_set_buffer fragment t1)
    as Read1.
  { unfold handleStdinData. fold lines1. fold fragment.
    rewrite parse_lines_set_buffer, Clean. reflexivity. }
  assert (split newline (messageBuffer t +:+ (first +:+ second))
          = removelast lines1 ++ lines2) as Whole.
  { rewrite <- string_app_assoc. apply split_app. }
  destruct (split_nonempty newline (fragment +:+ second)) as (l & ls & Split).
  assert (removelast (removelast lines1 ++ lines2)
          = removelast lines1 ++ removelast lines2) as Init.
  { subst lines2. rewrite Split. by apply removelast_app. }
  assert (List.last (removelast lines1 ++ lines2) "" = List.last lines2 "")
    as Last.
  { subst lines2. rewrite Split. clear.
    induction (removelast lines1) as [|x xs IH]; [done|].
    destruct xs; [done|]. exact IH. }
  rewrite Read1. unfold handleStdinData. rewrite Whole, Init, Last.
  change (messageBuffer (stdio_set_buffer fragment t1)) with fragment.
  fold lines2.
  rewrite parse_lines_app, !parse_lines_set_buffer, Clean. fold t1.
  by destruct (parse_lines (removelast lines2) t1) as [[u|e] t2].
Qed.
End Reads.

Lemma valid_lines_are_delivered_in_order_witness :
  exists request,
    @handleStdinData HostModel.host
      (Some (Sample.line_ping "2.0" +:+ Sample.nl +:+ Sample.nl +:+ "{"))
      Sample.stdio =
    {| stdio_connected := true;
       messageBuffer := "{";
       stdout_written := [];
       stdout_write_error := None;
       stdio_emitted := [EvMessage request] |}.
Proof.
  eexists.
  apply (@valid_lines_are_delivered_in_order HostModel.host
           (Sample.line_ping "2.0" +:+ Sample.nl +:+ Sample.nl +:+ "{")
           [_] Sample.stdio).
  vm_compute. repeat constructor.
Defined.

Lemma chunking_is_invisible_witness :
  @handleStdinData HostModel.host (Some ("ng" +:+ Sample.q +:+ "}" +:+ Sample.nl))
    (@handleStdinData HostModel.host
       (Some (Sample.line_ping "2.0" +:+ Sample.nl +:+ "{" +:+ Sample.q
                +:+ "jsonrpc" +:+ Sample.q +:+ ":" +:+ Sample.q +:+ "2.0"
                +:+ Sample.q +:+ "," +:+ Sample.q +:+ "method" +:+ Sample.q
                +:+ ":" +:+ Sample.q +:+ "pi"))
       Sample.stdio)
  = @handleStdinData HostModel.host
      (Some ((Sample.line_ping "2.0" +:+ Sample.nl +:+ "{" +:+ Sample.q
                +:+ "jsonrpc" +:+ Sample.q +:+ ":" +:+ Sample.q +:+ "2.0"
                +:+ Sample.q +:+ "," +:+ Sample.q +:+ "method" +:+ Sample.q
                +:+ ":" +:+ Sample.q +:+ "pi")
             +:+ ("ng" +:+ Sample.q +:+ "}" +:+ Sample.nl)))
      Sample.stdio.
Proof.
  apply (@chunking_is_invisible HostModel.host). by vm_compute.
Defined.

(** ** The transport registry *)

Lemma getTransport_None (id : string) (m : MCPTransportManager) :
  getTransport id m = None <-> id ∉ transport_ids m.
Proof.
  unfold getTransport, transport_ids. destruct m as [entries log]. simpl.
  induction entries as [|[id' transport'] entries IH]; simpl.
  - split; [intros _; apply not_elem_of_nil|done].
  - rewrite not_elem_of_cons.
    destruct (String.eqb id' id) eqn:E; simpl.
    + apply String.eqb_eq in E as ->. split; [done|]. by intros [? _].
    + apply String.eqb_neq in E. rewrite IH. split; [done|by intros [_ ?]].
Qed.

Lemma filter_other_ids (id : string) (entries : list (string * MCPTransport)) :
  id ∉ (fst <$> entries) ->
  List.filter (fun e => negb (String.eqb (fst e) id)) entries = entries.
Proof.
  induction entries as [|[id' transport'] entries IH]; simpl; [done|].
  rewrite not_elem_of_cons. intros [Ne Fresh].
  destruct (String.eqb id' id) eqn:E; simpl.
  - apply String.eqb_eq in E. congruence.
  - by rewrite IH.
Qed.

Lemma broadcast_keeps_ids (message : JSONRPCNotification)
    (m : MCPTransportManager) :
  transport_ids (snd (broadcast message m)) = transport_ids m.
Proof.
  unfold transport_ids, broadcast. simpl.
  induction (transports m) as [|entry entries IH]; simpl; [done|].
  f_equal; [|exact IH]. apply broadcast_entry_settles.
Qed.

(** X26.  The ids of the registry stay pairwise distinct under
    [addTransport], [removeTransport] and [broadcast], so the list of
    entries behaves as the [Map] it stands for. *)
Theorem manager_ids_stay_distinct (id : string) (transport : MCPTransport)
    (message : JSONRPCNotification) (m : MCPTransportManager) :
  NoDup (transport_ids m) ->
  NoDup (transport_ids (snd (addTransport id transport m))) /\
  NoDup (transport_ids (removeTransport id m)) /\
  NoDup (transport_ids (snd (broadcast message m))).
Proof.
  intros Distinct. split; [|split].
  - unfold addTransport.
    destruct (getTransport id m) eqn:Bound; simpl; [done|].
    apply getTransport_None in Bound.
    unfold transport_ids in *. simpl. rewrite fmap_app. simpl.
    apply NoDup_app. split; [done|]. split; [|apply NoDup_singleton].
    intros x In ->%list_elem_of_singleton. done.
  - unfold transport_ids, removeTransport in *. simpl.
    induction (transports m) as [|[id' transport'] entries IH]; simpl;
      [done|].
    apply NoDup_cons in Distinct as [Fresh Distinct].
    destruct (negb (String.eqb id' id)); simpl; [|by apply IH].
    apply NoDup_cons. split; [|by apply IH].
    intros In. apply Fresh. clear -In.
    induction entries as [|[id'' transport''] entries IH]; simpl in *;
      [done|].
    destruct (negb (String.eqb id'' id)); simpl in In.
    + apply elem_of_cons in In as [->|In]; [left|right; by apply IH].
    + right. by apply IH.
  - by rewrite broadcast_keeps_ids.
Qed.

Lemma manager_ids_stay_distinct_witness :
  let m := {| transports := [("a", WebSocket Sample.ws);
                             ("b", Stdio Sample.stdio)];
              manager_log := [] |} in
  NoDup (transport_ids (snd (addTransport "c" (Stdio Sample.stdio) m))) /\
  NoDup (transport_ids (removeTransport "c" m)) /\
  NoDup (transport_ids (snd (broadcast Sample.list_changed m))).
Proof.
  intros m.
  apply (manager_ids_stay_distinct "c" (Stdio Sample.stdio)
           Sample.list_changed m).
  apply (bool_decide_unpack _). vm_compute. exact I.
Defined.

(** X27.  Adding a transport under a fresh id and removing it again: the
    addition succeeds, the id then gives the transport, the other ids
    give what they gave, the count of active transports grows by one
    exactly when the transport is connected, a second addition under
    the id throws InternalError and changes nothing, and the removal
    restores the registry. *)
Theorem add_then_remove_transport (id : string) (transport : MCPTransport)
    (m : MCPTransportManager) :
  getTransport id m = None ->
  let m' := snd (addTransport id transport m) in
  fst (addTransport id transport m) = Return tt /\
  getTransport id m' = Some transport /\
  (forall other, other <> id -> getTransport other m' = getTransport other m) /\
  getActiveCount m' =
    getActiveCount m + (if isConnected transport then 1 else 0) /\
  (forall again,
     addTransport id again m' =
       (Throw (ExnMCP (mkMCPError INTERNAL_ERROR
                         ("Transport with id '" +:+ id
                            +:+ "' already exists") None)),
        m')) /\
  removeTransport id m' = m.
Proof.
  intros Fresh m'.
  assert (m' = {| transports := transports m ++ [(id, transport)];
                  manager_log := manager_log m |}) as Added
    by (subst m'; unfold addTransport; by rewrite Fresh).
  assert (forall other,
            getTransport other m' =
              match getTransport other m with
              | Some t => Some t
              | None => if String.eqb id other then Some transport else None
              end) as Lookup.
  { intros other. rewrite Added. clear. unfold getTransport. simpl.
    induction (transports m) as [|[id' transport'] entries IH]; simpl.
    - by destruct (String.eqb id other).
    - destruct (String.eqb id' other); [done|exact IH]. }
  split; [unfold addTransport; by rewrite Fresh|].
  split; [by rewrite Lookup, Fresh, String.eqb_refl|].
  split.
  { intros other Ne. rewrite Lookup.
    destruct (getTransport other m); [done|].
    apply not_eq_sym, String.eqb_neq in Ne. by rewrite Ne. }
  split.
  { rewrite Added. unfold getActiveCount. simpl.
    rewrite List.filter_app, length_app. simpl.
    by destruct (isConnected transport). }
  split.
  { intros again. unfold addTransport.
    by rewrite Lookup, Fresh, String.eqb_refl. }
  rewrite Added. unfold removeTransport. simpl.
  rewrite List.filter_app. simpl. rewrite String.eqb_refl. simpl.
  rewrite app_nil_r, filter_other_ids; [by destruct m|].
  by apply getTransport_None.
Qed.

Lemma add_then_remove_transport_witness :
  let m := {| transports := [("a", WebSocket Sample.ws)];
              manager_log := [] |} in
  removeTransport "b" (snd (addTransport "b" (Stdio Sample.stdio) m)) = m.
Proof.
  intros m.
  exact (proj2 (proj2 (proj2 (proj2 (proj2
           (add_then_remove_transport "b" (Stdio Sample.stdio) m eq_refl)))))).
Defined.

(** X28.  [removeTransport] unbinds the id and nothing else, does
    nothing on an id that is not bound, and never raises the count of
    active transports. *)
Theorem removeTransport_unbinds (id : string) (m : MCPTransportManager) :
  getTransport id (removeTransport id m) = None /\
  (forall other, other <> id ->
     getTransport other (removeTransport id m) = getTransport other m) /\
  (getTransport id m = None -> removeTransport id m = m) /\
  removeTransport id (removeTransport id m) = removeTransport id m /\
  getActiveCount (removeTransport id m) <= getActiveCount m.
Proof.
  assert (getTransport id (removeTransport id m) = None) as Gone.
  { unfold getTransport, removeTransport. simpl.
    induction (transports m) as [|[id' transport'] entries IH]; simpl;
      [done|].
    destruct (String.eqb id' id) eqn:E; simpl; [exact IH|].
    by rewrite E. }
  assert (forall m', getTransport id m' = None -> removeTransport id m' = m')
    as Noop.
  { intros m' Fresh%getTransport_None. unfold removeTransport.
    rewrite filter_other_ids; [by destruct m'|done]. }
  split; [exact Gone|]. split; [|split; [apply Noop|split]].
  - intros other Ne. unfold getTransport, removeTransport. simpl.
    induction (transports m) as [|[id' transport'] entries IH]; simpl;
      [done|].
    destruct (String.eqb id' id) eqn:E; simpl.
    + apply String.eqb_eq in E as ->.
      apply not_eq_sym, String.eqb_neq in Ne. by rewrite Ne.
    + by destruct (String.eqb id' other).
  - by apply Noop.
  - unfold getActiveCount, removeTransport. simpl.
    induction (transports m) as [|[id' transport'] entries IH]; simpl;
      [done|].
    destruct (negb (String.eqb id' id)); simpl;
      destruct (isConnected transport'); simpl; lia.
Qed.

(** ** Broadcasting *)

Lemma send_keeps_connection (message : OutMessage) (transport : MCPTransport) :
  isConnected (snd (send message transport)) = isConnected transport.
Proof.
  destruct transport as [t|t]; simpl; unfold ws_send, stdio_send.
  - destruct (negb (ws_connected t)); [done|].
    by destruct (socket_emit_error (ws_socket t)).
  - destruct (negb (stdio_connected t)); [done|].
    by destruct (stdout_write_error t).
Qed.

Lemma broadcast_entry_logs (message : OutMessage)
    (entry : string * MCPTransport) :
  snd (broadcast_entry message entry) =
    if send_fails entry then [broadcast_failure entry] else [].
Proof.
  destruct entry as [id transport]. unfold broadcast_entry, send_fails.
  simpl. destruct (isConnected transport) eqn:Connected; [|done]. simpl.
  destruct transport as [t|t]; simpl in *;
    unfold ws_isConnected, stdio_isConnected, ws_send, stdio_send in *.
  - apply andb_true_iff in Connected as [-> _]. simpl.
    by destruct (socket_emit_error (ws_socket t)) as [e|].
  - rewrite Connected. simpl.
    by destruct (stdout_write_error t) as [e|].
Qed.

Lemma broadcast_entry_keeps_connection (message : OutMessage)
    (entry : string * MCPTransport) :
  isConnected (snd (snd (fst (broadcast_entry message entry))))
    = isConnected (snd entry).
Proof.
  destruct entry as [id transport]. unfold broadcast_entry. simpl.
  destruct (isConnected transport) eqn:Connected; [|done].
  pose proof (send_keeps_connection message transport) as Kept.
  destruct (send message transport) as [[u|e] transport']; simpl in *;
    congruence.
Qed.

(** X29.  The books of a broadcast: it keeps the ids of the registry in
    their order and the count of active transports, and it adds to the
    log one entry for each connected transport whose channel fails, in
    the order of the registry, and no other. *)
Theorem broadcast_accounts_for_every_failure (message : JSONRPCNotification)
    (m : MCPTransportManager) :
  transport_ids (snd (broadcast message m)) = transport_ids m /\
  getActiveCount (snd (broadcast message m)) = getActiveCount m /\
  manager_log (snd (broadcast message m)) =
    manager_log m
      ++ (broadcast_failure <$> List.filter send_fails (transports m)).
Proof.
  split; [apply broadcast_keeps_ids|]. split.
  - unfold getActiveCount, broadcast. simpl.
    induction (transports m) as [|entry entries IH]; simpl; [done|].
    rewrite broadcast_entry_keeps_connection.
    destruct (isConnected (snd entry)); simpl; by rewrite IH.
  - unfold broadcast. simpl. f_equal.
    induction (transports m) as [|entry entries IH]; simpl; [done|].
    rewrite broadcast_entry_logs, IH.
    by destruct (send_fails entry).
Qed.

(** ** A payload on a socket connection *)

(** X30.  On an open connection whose channel works, a payload is
    answered exactly when the transport's checks accept it, and then
    with one message, the response of the dispatcher; a payload they
    reject raises the error event and the client is sent nothing, no
    error response either.  The connection stays as it was. *)
Theorem payload_is_answered_iff_accepted `{Host}
    (handlers : gmap string BaseMCPHandler) (data : jsval)
    (transport : WebSocketTransport) :
  ws_connected transport = true ->
  socket_emit_error (ws_socket transport) = None ->
  let after := connection_receive handlers data transport in
  socket_sent (ws_socket after) =
    socket_sent (ws_socket transport)
      ++ match ws_checked_message data with
         | Return message => [OutResponse (handleRequest handlers message)]
         | Throw _ => []
         end /\
  ws_emitted after =
    ws_emitted transport
      ++ [match ws_checked_message data with
          | Return message => EvMessage message
          | Throw _ =>
              EvError (mkMCPError PARSE_ERROR
                         "Failed to parse incoming message" None)
          end] /\
  ws_connected after = true /\
  socket_connected (ws_socket after) = socket_connected (ws_socket transport).
Proof.
  intros Open Healthy after. subst after.
  unfold connection_receive, ws_on_socket_message, ws_handleMessage.
  destruct (ws_checked_message data) as [message|e];
    unfold ws_emit at 1; simpl; rewrite drop_app_length; simpl.
  - unfold on_transport_message, ws_send. simpl. rewrite Open, Healthy.
    simpl. done.
  - by rewrite app_nil_r.
Qed.

Lemma payload_is_answered_iff_accepted_witness :
  socket_sent
    (ws_socket (@connection_receive HostModel.host Sample.handlers
                  (Some Sample.old_version_ping) Sample.ws)) = [] /\
  socket_sent
    (ws_socket (@connection_receive HostModel.host Sample.handlers
                  (Some Sample.tools_call_unknown) Sample.ws))
  = [] ++ [OutResponse (@handleRequest HostModel.host Sample.handlers
                          (as_request Sample.tools_call_unknown))].
Proof.
  split.
  - exact (proj1 (@payload_is_answered_iff_accepted HostModel.host
                    Sample.handlers (Some Sample.old_version_ping) Sample.ws
                    eq_refl eq_refl)).
  - exact (proj1 (@payload_is_answered_iff_accepted HostModel.host
                    Sample.handlers (Some Sample.tools_call_unknown) Sample.ws
                    eq_refl eq_refl)).
Defined.
